(** * pyEnder3PumpControl: a shallow embedding of [pyPumpControl.py]

    The script drives three syringe pumps through a 3D-printer board: a Tk
    front end edits per-axis flow rates, a daemon thread sends one [G1]
    line per second.  The development has three layers:

    - [PyNum], [PyFmt]: the pieces of the Python runtime the script leans
      on ([str] of an int, [repr] and [.2f] of a float, [int / int],
      [float] of a string), over binary64 primitive floats;
    - the module-level state ([ser], [connected], [cancelled], [lock],
      [pumps], the widgets) as a record, with the serial device as a
      script of replies and every observable effect recorded in a trace;
    - the functions of the script in a state-and-exception monad, keeping
      their names, then the properties proved about them. *)

From Stdlib Require Import ZArith Floats String Ascii List Bool Lia.
Import ListNotations.
Set Warnings "-inexact-float".
Open Scope string_scope.
Open Scope Z_scope.

(** * The numeric side of the Python runtime *)

Module PyNum.

(** A Python [float] is an IEEE binary64. *)
Definition float := PrimFloat.float.

(** Decimal digits of a non-negative integer, most significant first. *)
Fixpoint digits_aux (fuel : nat) (n : Z) (acc : list Z) : list Z :=
  match fuel with
  | O => n mod 10 :: acc
  | S k => if n <? 10 then n mod 10 :: acc else digits_aux k (n / 10) (n mod 10 :: acc)
  end.

Definition digits_of (n : Z) : list Z :=
  digits_aux (Z.to_nat (Z.log2 n)) n [].

Definition digit_char (d : Z) : ascii := ascii_of_nat (48 + Z.to_nat (d mod 10)).

Definition digits_str (ds : list Z) : string :=
  string_of_list_ascii (map digit_char ds).

(** [str(n)] for an int, which is what an f-string field [{n}] renders. *)
Definition int_str (n : Z) : string :=
  if n <? 0 then String "-" (digits_str (digits_of (- n))) else digits_str (digits_of n).

(** ** [repr] of a float

    [repr(x)], which an f-string field [{x}] renders, is the shortest
    digit string that reads back as [x]; among the shortest, the one
    nearest to [x].  A finite non-zero [x] is [m * 2^e]; all comparisons
    below are between integers, in units of [2^(e-2)]. *)

Fixpoint first_scale (fuel : nat) (j P Q : Z) : Z :=
  match fuel with
  | O => j
  | S k => if Q <=? P then j else first_scale k (j + 1) (10 * P) Q
  end.

Fixpoint strip_zeros_rev (ds : list Z) : list Z :=
  match ds with
  | 0 :: r => strip_zeros_rev r
  | _ => ds
  end.

Definition strip_trailing_zeros (ds : list Z) : list Z :=
  match rev (strip_zeros_rev (rev ds)) with
  | [] => [0]
  | l => l
  end.

(** The value [0.d1 d2 ... dn * 10^dec_point]. *)
Record decimal := { dec_digits : list Z; dec_point : Z }.

Section Shortest.
Variables (m : positive) (e : Z).

(** The value, and the two ends of the interval of reals that round to
    it: half-way to the next float up and half-way to the next float
    down (which is nearer when [m] is the smallest mantissa of its
    binade). *)
Let V := 4 * Z.pos m.
Let HI := V + 2.
Let LO := if (Z.pos m =? 2 ^ 52) && (-1074 <? e) then V - 1 else V - 2.
Let P := V * 2 ^ Z.max (e - 2) 0.
Let Q := 2 ^ Z.max (2 - e) 0.

(** The [d] with [10^(d-1) <= x < 10^d]. *)
Definition decpt0 : Z :=
  if Q <=? P then Z.of_nat (length (digits_of (P / Q)))
  else 1 - first_scale 400 0 P Q.

(** [k * B] lies in the rounding interval; its ends belong to it when
    [m] is even (ties round to even). *)
Definition inside (B k : Z) (lo hi : Z) : bool :=
  if Z.even (Z.pos m) then (lo <=? k * B) && (k * B <=? hi)
  else (lo <? k * B) && (k * B <? hi).

(** The [n]-digit decimal that reads back as [x], if there is one: [x]
    rounded down or up to [n] digits, whichever is in the interval and
    nearer. *)
Definition candidate (n : Z) : option Z :=
  let s := 10 ^ Z.max (n - decpt0) 0 * 2 ^ Z.max (e - 2) 0 in
  let B := Q * 10 ^ Z.max (decpt0 - n) 0 in
  let A := V * s in
  let kd := A / B in
  let ku := if A mod B =? 0 then kd else kd + 1 in
  let dok := inside B kd (LO * s) (HI * s) in
  let uok := inside B ku (LO * s) (HI * s) in
  match dok, uok with
  | true, true =>
      match (A - kd * B) ?= (ku * B - A) with
      | Lt => Some kd
      | Gt => Some ku
      | Eq => Some (if Z.even kd then kd else ku)
      end
  | true, false => Some kd
  | false, true => Some ku
  | false, false => None
  end.

Fixpoint search (fuel : nat) (n : Z) : decimal :=
  match candidate n with
  | Some k =>
      let ds := digits_of k in
      {| dec_digits := strip_trailing_zeros ds;
         dec_point := decpt0 + (Z.of_nat (length ds) - n) |}
  | None =>
      match fuel with
      | O => {| dec_digits := [0]; dec_point := 1 |}
      | S f => search f (n + 1)
      end
  end.

(** Seventeen digits always suffice for a binary64. *)
Definition shortest : decimal := search 17 1.
End Shortest.

Definition zeros (n : Z) : list Z := repeat 0 (Z.to_nat n).

(** The exponent of the scientific form: a sign, then at least two digits. *)
Definition exp_str (x : Z) : string :=
  let a := Z.abs x in
  ((if Z.ltb x 0 then "-" else "+") ++
   (if Z.ltb a 10 then "0" else "") ++ digits_str (digits_of a))%string.

(** [repr] switches to the scientific form when the decimal point falls
    more than three places before the digits or more than sixteen places
    into them. *)
Definition use_exp (d : decimal) : bool :=
  (dec_point d <=? -4) || (16 <? dec_point d).

Definition repr_finite (d : decimal) : string :=
  let ds := dec_digits d in
  let n := Z.of_nat (length ds) in
  let p := dec_point d in
  if use_exp d then
    (digits_str (firstn 1 ds) ++
     match skipn 1 ds with
     | [] => ""
     | r => "." ++ digits_str r
     end ++ "e" ++ exp_str (p - 1))%string
  else if p <=? 0 then ("0." ++ digits_str (zeros (- p) ++ ds)%list)%string
  else if n <=? p then (digits_str (ds ++ zeros (p - n))%list ++ ".0")%string
  else (digits_str (firstn (Z.to_nat p) ds) ++ "." ++ digits_str (skipn (Z.to_nat p) ds))%string.

Definition float_repr (x : float) : string :=
  match Prim2SF x with
  | S754_nan => "nan"
  | S754_infinity s => if s then "-inf" else "inf"
  | S754_zero s => if s then "-0.0" else "0.0"
  | S754_finite s m e => ((if s then "-" else "") ++ repr_finite (shortest m e))%string
  end.

End PyNum.

(** * Formatting, division and parsing *)

Module PyFmt.
Import PyNum.

(** [f"{x:.2f}"]: the exact binary value rounded half-to-even to two
    decimals. *)
Definition round_half_even (a b : Z) : Z :=
  let q := a / b in
  let r := a mod b in
  match 2 * r ?= b with
  | Lt => q
  | Gt => q + 1
  | Eq => if Z.even q then q else q + 1
  end.

Definition fixed2 (m : positive) (e : Z) : string :=
  let k := round_half_even (Z.pos m * 100 * 2 ^ Z.max e 0) (2 ^ Z.max (- e) 0) in
  let frac := k mod 100 in
  (digits_str (digits_of (k / 100)) ++ "." ++ digits_str [frac / 10; frac mod 10])%string.

Definition format_2f (x : float) : string :=
  match Prim2SF x with
  | S754_nan => "nan"
  | S754_infinity s => if s then "-inf" else "inf"
  | S754_zero s => if s then "-0.00" else "0.00"
  | S754_finite s m e => ((if s then "-" else "") ++ fixed2 m e)%string
  end.

(** An integer as an exact, unrounded operand of [SFdiv]. *)
Definition SF_exact (z : Z) : spec_float :=
  match z with
  | Z0 => S754_zero false
  | Zpos p => S754_finite false p 0
  | Zneg p => S754_finite true p 0
  end.

(** [a / b] on two ints (b nonzero): the quotient rounded once. *)
Definition int_truediv (a b : Z) : float :=
  SF2Prim (SFdiv prec emax (SF_exact a) (SF_exact b)).

(** ** [float(s)] on a [str]

    Surrounding white space is dropped, single underscores may separate
    digits, then comes a signed decimal literal, [inf], [infinity] or
    [nan]; anything else is a [ValueError], here [None].  This instance
    covers ASCII text: it rejects every byte above 127, where CPython also
    reads the decimal digits of other scripts. *)
Definition code (c : ascii) : Z := Z.of_nat (nat_of_ascii c).
Definition is_space (c : ascii) : bool :=
  ((9 <=? code c) && (code c <=? 13)) || (code c =? 32).
Definition is_digit (c : ascii) : bool := (48 <=? code c) && (code c <=? 57).
Definition digit_val (c : ascii) : Z := code c - 48.
Definition lower (c : ascii) : ascii :=
  if (65 <=? code c) && (code c <=? 90) then ascii_of_nat (nat_of_ascii c + 32) else c.

Fixpoint lstrip (s : list ascii) : list ascii :=
  match s with
  | c :: r => if is_space c then lstrip r else s
  | [] => []
  end.
Definition strip (s : list ascii) : list ascii := rev (lstrip (rev (lstrip s))).

Definition is_underscore (c : ascii) : bool := code c =? 95.

Fixpoint underscores_ok (prev : ascii) (s : list ascii) : bool :=
  match s with
  | [] => negb (is_underscore prev)
  | c :: r =>
      (if is_underscore c then is_digit prev
       else negb (is_underscore prev) || is_digit c)
      && underscores_ok c r
  end.

Definition drop_underscores (s : list ascii) : list ascii :=
  filter (fun c => negb (is_underscore c)) s.

Definition take_sign (s : list ascii) : bool * list ascii :=
  match s with
  | c :: r => if code c =? 45 then (true, r) else if code c =? 43 then (false, r) else (false, s)
  | [] => (false, [])
  end.

Fixpoint take_digits (s : list ascii) : list ascii * list ascii :=
  match s with
  | c :: r => if is_digit c then let (d, t) := take_digits r in (c :: d, t) else ([], s)
  | [] => ([], [])
  end.

Definition digits_value (ds : list ascii) : Z :=
  fold_left (fun acc c => 10 * acc + digit_val c) ds 0.

Definition decimal_to_float (neg : bool) (n k : Z) : float :=
  if n =? 0 then SF2Prim (S754_zero neg)
  else
    let nd := Z.of_nat (length (digits_of n)) in
    if 400 <? k + nd then SF2Prim (S754_infinity neg)
    else if k + nd <? -400 then SF2Prim (S754_zero neg)
    else
      SF2Prim (SFdiv prec emax
                 (SF_exact ((if neg then -1 else 1) * n * 10 ^ Z.max k 0))
                 (SF_exact (10 ^ Z.max (- k) 0))).

Definition parse_exponent (s : list ascii) : option Z :=
  match s with
  | [] => Some 0
  | c :: r =>
      if code (lower c) =? 101 then
        let (eneg, r1) := take_sign r in
        let (ed, r2) := take_digits r1 in
        match ed, r2 with
        | _ :: _, [] => Some ((if eneg then -1 else 1) * digits_value ed)
        | _, _ => None
        end
      else None
  end.

Definition parse_number (s : list ascii) : option float :=
  let (neg, s1) := take_sign s in
  let word := string_of_list_ascii (map lower s1) in
  if String.eqb word "inf" || String.eqb word "infinity" then
    Some (SF2Prim (S754_infinity neg))
  else if String.eqb word "nan" then Some PrimFloat.nan
  else
    let (ip, s2) := take_digits s1 in
    let (fp, s3) :=
      match s2 with
      | c :: r => if code c =? 46 then take_digits r else ([], s2)
      | [] => ([], [])
      end in
    match (ip ++ fp)%list with
    | [] => None
    | ds =>
        match parse_exponent s3 with
        | Some x => Some (decimal_to_float neg (digits_value ds) (x - Z.of_nat (length fp)))
        | None => None
        end
    end.

Definition ascii_float (s : string) : option float :=
  let t := strip (list_ascii_of_string s) in
  if underscores_ok zero t then parse_number (drop_underscores t) else None.

End PyFmt.

Import PyNum PyFmt.

(** * Module-level data of the script *)

Definition SERIAL_PORT : string := "COM8".
Definition BAUDRATE : Z := 115200.
Definition stepsize : Z := 1.

Definition LF : string := String (ascii_of_nat 10) EmptyString.

(** The keys ['X'], ['Y'], ['Z'] of [pumps] and of the widget dicts. *)
Inductive Axis := AX | AY | AZ.

Definition axis_name (a : Axis) : string :=
  match a with AX => "X" | AY => "Y" | AZ => "Z" end.

Definition axis_eqb (a b : Axis) : bool :=
  match a, b with
  | AX, AX | AY, AY | AZ, AZ => true
  | _, _ => false
  end.

(** One entry of [syringes]. *)
Record syringe_profile := { name : string; steps : Z }.

(** A dict with string keys, in insertion order. *)
Fixpoint dict_find {V : Type} (k : string) (d : list (string * V)) : option V :=
  match d with
  | [] => None
  | (k', v) :: r => if String.eqb k k' then Some v else dict_find k r
  end.

(** [d.get(k, default)]. *)
Definition dict_get_default {V : Type} (d : list (string * V)) (k : string) (default : V) : V :=
  match dict_find k d with
  | Some v => v
  | None => default
  end.

Definition syringes : list (string * syringe_profile) :=
  [ ("0", {| name := "none"; steps := 0 |});
    ("1", {| name := "10 mL HenkeJect"; steps := 20927 |});
    ("2", {| name := "5 mL HenkeJect"; steps := 10800 |});
    ("3", {| name := "2 mL HenkeJect"; steps := 20003 |}) ].

(** The two comprehensions over [syringes.items()]; the names are
    pairwise distinct, so no entry overwrites another. *)
Definition syringe_name_to_id : list (string * string) :=
  map (fun kv => (name (snd kv), fst kv)) syringes.

Definition syringe_id_to_name : list (string * string) :=
  map (fun kv => (fst kv, name (snd kv))) syringes.

(** One value of [pumps]. *)
Record pump := { flow : float; pos : float; syringe : string; enabled : bool }.

Definition set_flow (v : float) (p : pump) : pump :=
  {| flow := v; pos := pos p; syringe := syringe p; enabled := enabled p |}.
Definition set_syringe (v : string) (p : pump) : pump :=
  {| flow := flow p; pos := pos p; syringe := v; enabled := enabled p |}.
Definition set_enabled (v : bool) (p : pump) : pump :=
  {| flow := flow p; pos := pos p; syringe := syringe p; enabled := v |}.

(** [pumps]: a dict keyed by axis; [items()] walks it in insertion order. *)
Fixpoint pumps_find (k : Axis) (d : list (Axis * pump)) : option pump :=
  match d with
  | [] => None
  | (k', v) :: r => if axis_eqb k k' then Some v else pumps_find k r
  end.

(** Replacing the value of a key that is present keeps its place. *)
Fixpoint pumps_replace (k : Axis) (v : pump) (d : list (Axis * pump)) : list (Axis * pump) :=
  match d with
  | [] => []
  | (k', v') :: r => if axis_eqb k k' then (k', v) :: r else (k', v') :: pumps_replace k v r
  end.

Definition initial_pump : pump :=
  {| flow := 0%float; pos := 0%float; syringe := "0"; enabled := true |}.

Definition initial_pumps : list (Axis * pump) :=
  [ (AX, initial_pump); (AY, initial_pump); (AZ, initial_pump) ].

(** * Effects *)

Inductive exn :=
| SerialException (msg : string)
| ValueError (text : string)
| KeyError (key : string).

(** [str(e)], for texts without quotes or escapes. *)
Definition exn_str (e : exn) : string :=
  match e with
  | SerialException msg => msg
  | ValueError text => "could not convert string to float: '" ++ text ++ "'"
  | KeyError key => "'" ++ key ++ "'"
  end.

Inductive serial_call :=
| Open (port : string) (baudrate timeout : Z)
| ResetInputBuffer
| Write (data : string)
| Close.

(** What the port answers to one call. *)
Inductive reply := Ok | Fail (msg : string).

Definition is_ok (r : reply) : bool :=
  match r with Ok => true | Fail _ => false end.

Inductive field := Fflow | Fpos | Fsyringe | Fenabled.

(** Everything observable, in program order: lines printed, calls on the
    serial port with their result, sleeps, operations on [lock], stores
    into [pumps], assignments to [connected] (the flag the scheduler
    thread reads before it sends), and exceptions nobody caught (reported
    by the thread machinery or by Tk). *)
Inductive event :=
| Print (line : string)
| Serial (call : serial_call) (r : reply)
| Sleep (seconds : Z)
| Acquire
| Release
| Store (a : Axis) (f : field)
| SetConnected (v : bool)
| Traceback (e : exn).

Record serial_handle := { port : string; baudrate : Z; timeout : Z }.

Record widgets := {
  flow_entries : Axis -> string;
  syringe_vars : Axis -> string;
  current_labels : Axis -> string;
  toggle_buttons : Axis -> string;
  status_label : string }.

Record world := {
  ser : option serial_handle;
  connected : bool;
  cancelled : bool;
  lock : bool;
  pumps : list (Axis * pump);
  gui : widgets;
  scheduler_alive : bool;
  device : list reply;
  trace : list event }.

Definition set_ser (v : option serial_handle) (w : world) : world :=
  {| ser := v; connected := connected w; cancelled := cancelled w; lock := lock w;
     pumps := pumps w; gui := gui w; scheduler_alive := scheduler_alive w;
     device := device w; trace := trace w |}.
Definition set_connected (v : bool) (w : world) : world :=
  {| ser := ser w; connected := v; cancelled := cancelled w; lock := lock w;
     pumps := pumps w; gui := gui w; scheduler_alive := scheduler_alive w;
     device := device w; trace := trace w |}.
Definition set_cancelled (v : bool) (w : world) : world :=
  {| ser := ser w; connected := connected w; cancelled := v; lock := lock w;
     pumps := pumps w; gui := gui w; scheduler_alive := scheduler_alive w;
     device := device w; trace := trace w |}.
Definition set_lock (v : bool) (w : world) : world :=
  {| ser := ser w; connected := connected w; cancelled := cancelled w; lock := v;
     pumps := pumps w; gui := gui w; scheduler_alive := scheduler_alive w;
     device := device w; trace := trace w |}.
Definition set_pumps (v : list (Axis * pump)) (w : world) : world :=
  {| ser := ser w; connected := connected w; cancelled := cancelled w; lock := lock w;
     pumps := v; gui := gui w; scheduler_alive := scheduler_alive w;
     device := device w; trace := trace w |}.
Definition set_gui (v : widgets) (w : world) : world :=
  {| ser := ser w; connected := connected w; cancelled := cancelled w; lock := lock w;
     pumps := pumps w; gui := v; scheduler_alive := scheduler_alive w;
     device := device w; trace := trace w |}.
Definition set_scheduler_alive (v : bool) (w : world) : world :=
  {| ser := ser w; connected := connected w; cancelled := cancelled w; lock := lock w;
     pumps := pumps w; gui := gui w; scheduler_alive := v;
     device := device w; trace := trace w |}.
Definition set_device (v : list reply) (w : world) : world :=
  {| ser := ser w; connected := connected w; cancelled := cancelled w; lock := lock w;
     pumps := pumps w; gui := gui w; scheduler_alive := scheduler_alive w;
     device := v; trace := trace w |}.
Definition log (e : event) (w : world) : world :=
  {| ser := ser w; connected := connected w; cancelled := cancelled w; lock := lock w;
     pumps := pumps w; gui := gui w; scheduler_alive := scheduler_alive w;
     device := device w; trace := (trace w ++ [e])%list |}.

Definition update (f : Axis -> string) (a : Axis) (v : string) : Axis -> string :=
  fun b => if axis_eqb a b then v else f b.

Definition set_flow_entry (a : Axis) (v : string) (g : widgets) : widgets :=
  {| flow_entries := update (flow_entries g) a v; syringe_vars := syringe_vars g;
     current_labels := current_labels g; toggle_buttons := toggle_buttons g;
     status_label := status_label g |}.
Definition set_syringe_var (a : Axis) (v : string) (g : widgets) : widgets :=
  {| flow_entries := flow_entries g; syringe_vars := update (syringe_vars g) a v;
     current_labels := current_labels g; toggle_buttons := toggle_buttons g;
     status_label := status_label g |}.
Definition set_current_label (a : Axis) (v : string) (g : widgets) : widgets :=
  {| flow_entries := flow_entries g; syringe_vars := syringe_vars g;
     current_labels := update (current_labels g) a v; toggle_buttons := toggle_buttons g;
     status_label := status_label g |}.
Definition set_toggle_button (a : Axis) (v : string) (g : widgets) : widgets :=
  {| flow_entries := flow_entries g; syringe_vars := syringe_vars g;
     current_labels := current_labels g; toggle_buttons := update (toggle_buttons g) a v;
     status_label := status_label g |}.
Definition set_status_label (v : string) (g : widgets) : widgets :=
  {| flow_entries := flow_entries g; syringe_vars := syringe_vars g;
     current_labels := current_labels g; toggle_buttons := toggle_buttons g;
     status_label := v |}.

(** ** The monad

    A call ends by returning, by raising, or never (waiting for a lock
    that is held).  The state a call has built up survives an exception. *)
Inductive outcome (A : Type) :=
| Done (a : A)
| Raised (e : exn)
| Blocked.
Arguments Done {A} a.
Arguments Raised {A} e.
Arguments Blocked {A}.

Definition M (A : Type) : Type := world -> outcome A * world.

Definition ret {A : Type} (a : A) : M A := fun w => (Done a, w).

Definition bind {A B : Type} (m : M A) (k : A -> M B) : M B :=
  fun w =>
    match m w with
    | (Done a, w1) => k a w1
    | (Raised e, w1) => (Raised e, w1)
    | (Blocked, w1) => (Blocked, w1)
    end.

Notation "x <- c1 ;; c2" := (bind c1 (fun x => c2))
  (at level 61, c1 at next level, right associativity).
Notation "c1 ;; c2" := (bind c1 (fun _ => c2))
  (at level 61, right associativity).

Definition raise {A : Type} (e : exn) : M A := fun w => (Raised e, w).
Definition read {A : Type} (f : world -> A) : M A := fun w => (Done (f w), w).
Definition modify (f : world -> world) : M unit := fun w => (Done tt, f w).
Definition emit (e : event) : M unit := modify (log e).

(** [try: body / except: handler]. *)
Definition try_except {A : Type} (body : M A) (handler : exn -> M A) : M A :=
  fun w =>
    match body w with
    | (Raised e, w1) => handler e w1
    | r => r
    end.

(** [with lock: body]: the lock is released however the body ends. *)
Definition with_lock {A : Type} (body : M A) : M A :=
  fun w =>
    if lock w then (Blocked, w)
    else
      match body (log Acquire (set_lock true w)) with
      | (Blocked, w1) => (Blocked, w1)
      | (r, w1) => (r, log Release (set_lock false w1))
      end.

Fixpoint for_each {A : Type} (l : list A) (body : A -> M unit) : M unit :=
  match l with
  | [] => ret tt
  | x :: r => body x ;; for_each r body
  end.

Definition print (line : string) : M unit := emit (Print line).
Definition sleep (seconds : Z) : M unit := emit (Sleep seconds).

(** [connected = v]. *)
Definition assign_connected (v : bool) : M unit :=
  modify (set_connected v) ;; emit (SetConnected v).

(** One call on the serial port: the device script says how it ends; a
    script that has run out answers [Ok]. *)
Definition serial (c : serial_call) : M unit :=
  fun w =>
    match device w with
    | [] => (Done tt, log (Serial c Ok) w)
    | Ok :: rest => (Done tt, log (Serial c Ok) (set_device rest w))
    | Fail msg :: rest =>
        (Raised (SerialException msg), log (Serial c (Fail msg)) (set_device rest w))
    end.

(** [pumps[axis]]. *)
Definition pump_load (a : Axis) : M pump :=
  fun w =>
    match pumps_find a (pumps w) with
    | Some p => (Done p, w)
    | None => (Raised (KeyError (axis_name a)), w)
    end.

(** [pumps[axis][f] = ...]. *)
Definition pump_store (a : Axis) (f : field) (upd : pump -> pump) : M unit :=
  p <- pump_load a ;;
  modify (fun w => set_pumps (pumps_replace a (upd p) (pumps w)) w) ;;
  emit (Store a f).

(** [syringes[syringe_id]]. *)
Definition syringe_load (id : string) : M syringe_profile :=
  match dict_find id syringes with
  | Some s => ret s
  | None => raise (KeyError id)
  end.

Definition config (f : widgets -> widgets) : M unit :=
  modify (fun w => set_gui (f (gui w)) w).

(** * The functions of the script *)

Section Script.

(** [MOCK_MODE] is a constant of the script ([True] as shipped, [False]
    with the real printer); [py_float] is the builtin [float] applied to
    a [str], with [None] for [ValueError]. *)
Variable MOCK_MODE : bool.
Variable py_float : string -> option float.

Definition float_of_str (text : string) : M float :=
  match py_float text with
  | Some v => ret v
  | None => raise (ValueError text)
  end.

Definition toggle_pump (axis : Axis) : M unit :=
  p <- pump_load axis ;;
  pump_store axis Fenabled (set_enabled (negb (enabled p))) ;;
  p <- pump_load axis ;;
  let state := if enabled p then "ON" else "OFF" in
  config (set_toggle_button axis (axis_name axis ++ " " ++ state)) ;;
  print ("[i] " ++ axis_name axis ++ " pump turned " ++ state).

Definition send_gcode (command : string) : M unit :=
  c <- read connected ;;
  if c then
    s <- read ser ;;
    (match s with
     | Some _ => if negb MOCK_MODE then serial (Write (command ++ LF)) else ret tt
     | None => ret tt
     end) ;;
    print (">> " ++ command)
  else ret tt.

Definition connect_serial : M unit :=
  modify (set_cancelled false) ;;
  if MOCK_MODE then
    assign_connected true ;;
    config (set_status_label "✓ Mock connected") ;;
    print "[✓] Mock connected to virtual printer"
  else
    try_except
      (serial (Open SERIAL_PORT BAUDRATE 1) ;;
       modify (set_ser (Some {| port := SERIAL_PORT; baudrate := BAUDRATE; timeout := 1 |})) ;;
       sleep 2 ;;
       serial ResetInputBuffer ;;
       assign_connected true ;;
       config (set_status_label ("✓ Connected to " ++ SERIAL_PORT)) ;;
       print ("[✓] Connected to printer on " ++ SERIAL_PORT) ;;
       send_gcode "M92 X-0 Y-0 Z0" ;;
       send_gcode "M302 S0" ;;
       send_gcode "M211 S0" ;;
       send_gcode "G91")
      (fun e =>
         assign_connected false ;;
         config (set_status_label "✗ Connection failed") ;;
         print ("[X] Could not connect: " ++ exn_str e)).

Definition disconnect_serial : M unit :=
  s <- read ser ;;
  (match s with
   | Some _ => if negb MOCK_MODE then serial Close ;; modify (set_ser None) else ret tt
   | None => ret tt
   end) ;;
  assign_connected false ;;
  config (set_status_label "Disconnected") ;;
  print "[i] Disconnected from printer.".

(** [stepsize / 60], the period in minutes. *)
Definition printer_stepsize : float := int_truediv stepsize 60.

(** uL/min to mL/sec. *)
Definition printer_flow (flow : float) : float := ((flow / 60) / 1000)%float.

(** The command a tick builds from [pumps.items()]. *)
Definition scheduler_cmd (items : list (Axis * pump)) : string :=
  let cmd :=
    fold_left
      (fun cmd item =>
         let '(axis, data) := item in
         if negb (enabled data) then cmd
         else cmd ++ " " ++ axis_name axis ++ float_repr (printer_flow (flow data)))
      items "G1" in
  cmd ++ " F" ++ float_repr printer_stepsize.

(** One turn of the loop of [scheduler]. *)
Definition scheduler_tick : M unit :=
  sleep stepsize ;;
  with_lock
    (c <- read connected ;;
     k <- read cancelled ;;
     if c && negb k then
       items <- read pumps ;;
       send_gcode (scheduler_cmd items)
     else ret tt).

(** [while True:] unrolled [ticks] times: an exception leaves the loop. *)
Fixpoint scheduler (ticks : nat) : M unit :=
  match ticks with
  | O => ret tt
  | S n => scheduler_tick ;; scheduler n
  end.

Definition cancel_and_reset : M unit :=
  with_lock
    (modify (set_cancelled true) ;;
     for_each [AX; AY; AZ]
       (fun axis =>
          pump_store axis Fflow (set_flow 0%float) ;;
          config (set_current_label axis "0.00")) ;;
     send_gcode "M112" ;;
     send_gcode "M999" ;;
     config (set_status_label "✗ Cancelled & Reset") ;;
     print "[!] Cancelled all commands and sent reset.").

(** The second loop of [apply_rates], collecting [m92_parts]. *)
Fixpoint m92_loop (axes : list Axis) (m92_parts : list string) : M (list string) :=
  match axes with
  | [] => ret m92_parts
  | axis :: rest =>
      p <- pump_load axis ;;
      s <- syringe_load (syringe p) ;;
      let steps_per_ml := steps s in
      let steps_per_ml :=
        match axis with
        | AX | AY => - Z.abs steps_per_ml
        | AZ => steps_per_ml
        end in
      m92_loop rest (m92_parts ++ [(axis_name axis ++ int_str steps_per_ml)%string])%list
  end.

Definition apply_rates : M unit :=
  with_lock
    (for_each [AX; AY; AZ]
       (fun axis =>
          text <- read (fun w => flow_entries (gui w) axis) ;;
          new_flow <- try_except (float_of_str text)
                        (fun e => match e with
                                  | ValueError _ => ret 0%float
                                  | _ => raise e
                                  end) ;;
          pump_store axis Fflow (set_flow new_flow) ;;
          selected_name <- read (fun w => syringe_vars (gui w) axis) ;;
          pump_store axis Fsyringe
            (set_syringe (dict_get_default syringe_name_to_id selected_name "0")) ;;
          config (set_current_label axis (format_2f new_flow))) ;;
     m92_parts <- m92_loop [AX; AY; AZ] [] ;;
     let m92_cmd := "M92 " ++ String.concat " " m92_parts in
     send_gcode m92_cmd ;;
     send_gcode "M302 S0" ;;
     send_gcode "M211 S0" ;;
     send_gcode "G91").

(** ** The running program

    The front end and the scheduler thread take turns.  An exception out
    of a button command is reported by Tk and the main loop goes on; an
    exception out of [scheduler] ends its thread. *)
Inductive action :=
| Tick
| Connect
| Disconnect
| SetFlowRates
| CancelReset
| Toggle (a : Axis)
| TypeFlow (a : Axis) (text : string)
| PickSyringe (a : Axis) (choice : string).

Definition command (m : M unit) (w : world) : world :=
  match m w with
  | (Raised e, w1) => log (Traceback e) w1
  | (_, w1) => w1
  end.

Definition step (a : action) (w : world) : world :=
  match a with
  | Tick =>
      if scheduler_alive w then
        match scheduler_tick w with
        | (Raised e, w1) => set_scheduler_alive false (log (Traceback e) w1)
        | (_, w1) => w1
        end
      else w
  | Connect => command connect_serial w
  | Disconnect => command disconnect_serial w
  | SetFlowRates => command apply_rates w
  | CancelReset => command cancel_and_reset w
  | Toggle a => command (toggle_pump a) w
  | TypeFlow a text => set_gui (set_flow_entry a text (gui w)) w
  | PickSyringe a choice => set_gui (set_syringe_var a choice (gui w)) w
  end.

Definition run (acts : list action) (w : world) : world :=
  fold_left (fun w a => step a w) acts w.

End Script.

(** The state right after the script has built its window and started
    the scheduler thread, in front of a device that answers as [script]. *)
Definition initial_widgets : widgets :=
  {| flow_entries := fun _ => "0.0";
     syringe_vars := fun _ => "none";
     current_labels := fun _ => "0.00";
     toggle_buttons := fun a => axis_name a ++ " ON";
     status_label := "Disconnected" |}.

Definition initial_world (script : list reply) : world :=
  {| ser := None; connected := false; cancelled := false; lock := false;
     pumps := initial_pumps; gui := initial_widgets; scheduler_alive := true;
     device := script; trace := [] |}.

(** * Vocabulary of the properties *)

Fixpoint str_exists (P : ascii -> bool) (s : string) : bool :=
  match s with
  | EmptyString => false
  | String c r => P c || str_exists P r
  end.

Definition is_blank (c : ascii) : bool := Ascii.eqb c " ".
Definition is_exp_marker (c : ascii) : bool := Ascii.eqb c "e" || Ascii.eqb c "E".

Definition has_space (s : string) : bool := str_exists is_blank s.

(** The text carries an exponent marker. *)
Definition has_exponent (s : string) : bool := str_exists is_exp_marker s.

(** [s.split(sep)] for a one-character separator. *)
Fixpoint split_on (sep : ascii) (s : string) : list string :=
  match s with
  | EmptyString => [""]
  | String c r =>
      if Ascii.eqb c sep then "" :: split_on sep r
      else
        match split_on sep r with
        | [] => [String c ""]
        | h :: t => String c h :: t
        end
  end.

(** The space-separated fields of a G-code line. *)
Definition fields (cmd : string) : list string := split_on " " cmd.

(** The rate field of one item of [pumps]. *)
Definition rate_field (item : Axis * pump) : string :=
  axis_name (fst item) ++ float_repr (printer_flow (flow (snd item))).

(** The rate field of axis [a], present when [a] is enabled. *)
Definition axis_fields (items : list (Axis * pump)) (a : Axis) : list string :=
  match pumps_find a items with
  | Some p => if enabled p then [rate_field (a, p)] else []
  | None => []
  end.

Definition tail_of (items : list (Axis * pump)) : string :=
  fold_right (fun item s => " " ++ rate_field item ++ s) "" items.

(** A state between two calls: nobody holds the lock, and [pumps] has
    its three keys in the order of its literal. *)
Definition well_formed (w : world) : Prop :=
  lock w = false /\ map fst (pumps w) = [AX; AY; AZ].

Definition flow_of (w : world) (a : Axis) : option float :=
  option_map flow (pumps_find a (pumps w)).
Definition syringe_of (w : world) (a : Axis) : option string :=
  option_map syringe (pumps_find a (pumps w)).
Definition enabled_of (w : world) (a : Axis) : option bool :=
  option_map enabled (pumps_find a (pumps w)).

(** The events a call has added to the trace of [w]. *)
Definition added (w : world) (evs : list event) (w' : world) : Prop :=
  trace w' = (trace w ++ evs)%list.

(** A property of the state that no assignment of the script can break
    except taking the lock and clearing [cancelled]. *)
Definition insensitive (I : world -> Prop) : Prop :=
  (forall v w, I w -> I (set_ser v w)) /\
  (forall v w, I w -> I (set_connected v w)) /\
  (forall v w, I w -> I (set_gui v w)) /\
  (forall v w, I w -> I (set_device v w)) /\
  (forall v w, I w -> I (set_scheduler_alive v w)) /\
  (forall e w, I w -> I (log e w)) /\
  (forall a p w, I w -> I (set_pumps (pumps_replace a p (pumps w)) w)) /\
  (forall w, I w -> I (set_cancelled true w)).

(** [m] keeps [I] and never waits for the lock. *)
Definition stable (I : world -> Prop) {A : Type} (m : M A) : Prop :=
  forall w, I w -> I (snd (m w)) /\ fst (m w) <> Blocked.

(** The lock is in state [held], the keys of [pumps] are [keys], and,
    when [latched], [cancelled] is set. *)
Definition Inv (held latched : bool) (keys : list Axis) (w : world) : Prop :=
  lock w = held /\ map fst (pumps w) = keys /\ (latched = true -> cancelled w = true).

(** The table id and the steps constant behind a choice of the syringe
    menu ([syringe_name_to_id.get(choice, '0')], then [syringes[id]]). *)
Definition selected_id (choice : string) : string :=
  dict_get_default syringe_name_to_id choice "0".

Definition selected_steps (choice : string) : Z :=
  match dict_find (selected_id choice) syringes with
  | Some s => steps s
  | None => 0
  end.

(** What [apply_rates] keeps of the text of a flow entry. *)
Definition parsed_flow (py_float : string -> option float) (text : string) : float :=
  match py_float text with
  | Some v => v
  | None => 0%float
  end.

(** The first loop of [apply_rates], the M92 line for three steps
    constants, and the three standing commands, each on its own. *)
Definition store_rates (py_float : string -> option float) : M unit :=
  for_each [AX; AY; AZ]
    (fun axis =>
       text <- read (fun w => flow_entries (gui w) axis) ;;
       new_flow <- try_except (float_of_str py_float text)
                     (fun e => match e with
                               | ValueError _ => ret 0%float
                               | _ => raise e
                               end) ;;
       pump_store axis Fflow (set_flow new_flow) ;;
       selected_name <- read (fun w => syringe_vars (gui w) axis) ;;
       pump_store axis Fsyringe
         (set_syringe (dict_get_default syringe_name_to_id selected_name "0")) ;;
       config (set_current_label axis (format_2f new_flow))).

Definition m92_text (kx ky kz : Z) : string :=
  "M92 " ++ String.concat " "
    ["X" ++ int_str (- Z.abs kx); "Y" ++ int_str (- Z.abs ky); "Z" ++ int_str kz].

Definition standing_commands (MOCK_MODE : bool) : M unit :=
  send_gcode MOCK_MODE "M302 S0" ;;
  send_gcode MOCK_MODE "M211 S0" ;;
  send_gcode MOCK_MODE "G91".

(** No call on the port can fail during the next [n] calls. *)
Definition transport_quiet (MOCK_MODE : bool) (n : nat) (w : world) : Prop :=
  MOCK_MODE = true \/ connected w = false \/ ser w = None
  \/ forallb is_ok (firstn n (device w)) = true.

(** The stores into [pumps] made while the lock was not held. *)
Fixpoint unlocked_stores (held : bool) (tr : list event) : list event :=
  match tr with
  | [] => []
  | Acquire :: r => unlocked_stores true r
  | Release :: r => unlocked_stores false r
  | Store a f :: r =>
      if held then unlocked_stores held r else Store a f :: unlocked_stores held r
  | _ :: r => unlocked_stores held r
  end.

(** The turns of the scheduler loop a trace shows. *)
Definition ticks_done (tr : list event) : nat :=
  List.length (filter (fun e => match e with Sleep n => n =? stepsize | _ => false end) tr).

(** The lines handed to [ser.write], sent or not. *)
Fixpoint write_attempts (tr : list event) : list string :=
  match tr with
  | [] => []
  | Serial (Write data) _ :: r => data :: write_attempts r
  | _ :: r => write_attempts r
  end.

(** A world with the port open and [connected] set. *)
Definition printer_world (script : list reply) : world :=
  {| ser := Some {| port := SERIAL_PORT; baudrate := BAUDRATE; timeout := 1 |};
     connected := true; cancelled := false; lock := false;
     pumps := initial_pumps; gui := initial_widgets; scheduler_alive := true;
     device := script; trace := [] |}.

(** The pumps with a flow of 1 uL/min on X. *)
Definition slow_pumps : list (Axis * pump) :=
  [ (AX, set_flow 1%float initial_pump); (AY, initial_pump); (AZ, initial_pump) ].

(** The window with [abc] typed into the flow entry of Y. *)
Definition typo_world : world :=
  step true ascii_float (TypeFlow AY "abc")
    (step true ascii_float (TypeFlow AX "6000") (initial_world [])).

(** The same typo with the port open, [connected] set and a port that
    fails the next write. *)
Definition typo_printer_world : world :=
  step false ascii_float (TypeFlow AY "abc") (printer_world [Fail "write timeout"]).

(** The calls made on the serial port, and the lines printed. *)
Definition is_serial (e : event) : bool :=
  match e with Serial _ _ => true | _ => false end.

Definition serial_calls (tr : list event) : list event := filter is_serial tr.

Fixpoint printed (tr : list event) : list string :=
  match tr with
  | [] => []
  | Print line :: r => line :: printed r
  | _ :: r => printed r
  end.

(** The lock is in state [held], the device script is [script] and the
    calls made on the port so far are [calls]. *)
Definition Quiet (held : bool) (script : list reply) (calls : list event) (w : world) : Prop :=
  lock w = held /\ device w = script /\ serial_calls (trace w) = calls.

(** The window shows the state: each flow label is the stored flow to two
    decimals, each toggle button names its axis and its flag. *)
Definition in_sync (w : world) : Prop :=
  forall a p,
    pumps_find a (pumps w) = Some p ->
    current_labels (gui w) a = format_2f (flow p)
    /\ toggle_buttons (gui w) a = axis_name a ++ " " ++ (if enabled p then "ON" else "OFF").


(** * Properties of the runtime functions *)

Lemma append_assoc (a b c : string) : (a ++ b) ++ c = a ++ b ++ c.
Proof. induction a as [|x a IH]; simpl; [reflexivity | now rewrite IH]. Qed.

Lemma append_nil_r (a : string) : a ++ "" = a.
Proof. induction a as [|x a IH]; simpl; [reflexivity | now rewrite IH]. Qed.

Lemma str_exists_app (P : ascii -> bool) (a b : string) :
  str_exists P (a ++ b) = str_exists P a || str_exists P b.
Proof.
  induction a as [|x a IH]; simpl; [reflexivity |].
  now rewrite IH, orb_assoc.
Qed.

Lemma digit_char_cases (d : Z) :
  In (digit_char d) (map ascii_of_nat [48; 49; 50; 51; 52; 53; 54; 55; 56; 57]%nat).
Proof.
  unfold digit_char.
  assert (H : (Z.to_nat (d mod 10) < 10)%nat).
  { pose proof (Z.mod_pos_bound d 10 ltac:(lia)). lia. }
  remember (Z.to_nat (d mod 10)) as n eqn:E. clear E.
  do 10 (destruct n as [|n]; [simpl; tauto |]).
  lia.
Qed.

Section Plain.
Variable P : ascii -> bool.
Hypothesis P_digits :
  forallb (fun c => negb (P c)) (map ascii_of_nat [48; 49; 50; 51; 52; 53; 54; 55; 56; 57]%nat) = true.

Lemma plain_digit (d : Z) : P (digit_char d) = false.
Proof.
  rewrite forallb_forall in P_digits.
  specialize (P_digits _ (digit_char_cases d)).
  now apply negb_true_iff in P_digits.
Qed.

Lemma plain_digits_str (ds : list Z) : str_exists P (digits_str ds) = false.
Proof.
  unfold digits_str.
  induction ds as [|d ds IH]; simpl; [reflexivity |].
  now rewrite plain_digit, IH.
Qed.
End Plain.

Lemma blank_digits :
  forallb (fun c => negb (is_blank c))
    (map ascii_of_nat [48; 49; 50; 51; 52; 53; 54; 55; 56; 57]%nat) = true.
Proof. reflexivity. Qed.

Lemma marker_digits :
  forallb (fun c => negb (is_exp_marker c))
    (map ascii_of_nat [48; 49; 50; 51; 52; 53; 54; 55; 56; 57]%nat) = true.
Proof. reflexivity. Qed.

Lemma int_str_no_exponent (n : Z) : has_exponent (int_str n) = false.
Proof.
  unfold int_str, has_exponent.
  destruct (n <? 0); simpl; now rewrite plain_digits_str by exact marker_digits.
Qed.

Lemma exp_str_no_space (x : Z) : has_space (exp_str x) = false.
Proof.
  unfold exp_str, has_space.
  rewrite !str_exists_app, plain_digits_str by exact blank_digits.
  now destruct (x <? 0), (Z.abs x <? 10).
Qed.

Lemma repr_finite_no_space (d : decimal) : has_space (repr_finite d) = false.
Proof.
  unfold repr_finite.
  pose proof exp_str_no_space as He. unfold has_space in *.
  destruct (use_exp d).
  - destruct (skipn 1 (dec_digits d));
      rewrite !str_exists_app, ?He, !plain_digits_str by exact blank_digits;
      reflexivity.
  - destruct (dec_point d <=? 0); [| destruct (_ <=? _)];
      rewrite !str_exists_app, !plain_digits_str by exact blank_digits;
      reflexivity.
Qed.

Lemma float_repr_no_space (x : float) : has_space (float_repr x) = false.
Proof.
  unfold float_repr.
  destruct (Prim2SF x) as [s | s | | s m e]; try (destruct s; reflexivity); try reflexivity.
  unfold has_space. rewrite str_exists_app.
  pose proof (repr_finite_no_space (shortest m e)) as H. unfold has_space in H.
  rewrite H. now destruct s.
Qed.

Lemma repr_finite_exponent (d : decimal) :
  has_exponent (repr_finite d) = use_exp d.
Proof.
  unfold repr_finite, has_exponent.
  destruct (use_exp d).
  - destruct (skipn 1 (dec_digits d));
      rewrite !str_exists_app, !plain_digits_str by exact marker_digits;
      reflexivity.
  - destruct (dec_point d <=? 0); [| destruct (_ <=? _)];
      rewrite !str_exists_app, !plain_digits_str by exact marker_digits;
      reflexivity.
Qed.

Lemma float_repr_exponent (x : float) :
  has_exponent (float_repr x) =
  match Prim2SF x with
  | S754_finite _ m e => use_exp (shortest m e)
  | _ => false
  end.
Proof.
  unfold float_repr.
  destruct (Prim2SF x) as [s | s | | s m e]; try (destruct s; reflexivity); try reflexivity.
  unfold has_exponent. rewrite str_exists_app.
  pose proof (repr_finite_exponent (shortest m e)) as H. unfold has_exponent in H.
  rewrite H. now destruct s.
Qed.

Lemma fields_one (a : string) : has_space a = false -> fields a = [a].
Proof.
  unfold fields, has_space.
  induction a as [|c a IH]; simpl; [reflexivity |].
  intros H. apply orb_false_iff in H. destruct H as [Hc Ha].
  unfold is_blank in Hc. rewrite Hc, (IH Ha). reflexivity.
Qed.

Lemma fields_cons (a b : string) :
  has_space a = false -> fields (a ++ String " " b) = a :: fields b.
Proof.
  unfold fields, has_space.
  induction a as [|c a IH]; simpl; [reflexivity |].
  intros H. apply orb_false_iff in H. destruct H as [Hc Ha].
  unfold is_blank in Hc. rewrite Hc, (IH Ha). reflexivity.
Qed.

(** The renderings are kept folded while the monadic code is simplified. *)
Arguments float_repr : simpl never.
Arguments format_2f : simpl never.
Arguments int_str : simpl never.
Arguments scheduler_cmd : simpl never.
Arguments printer_flow : simpl never.
Arguments printer_stepsize : simpl never.

(** * The motion command *)

Lemma rate_field_no_space (item : Axis * pump) : has_space (rate_field item) = false.
Proof.
  unfold rate_field, has_space. rewrite str_exists_app.
  pose proof (float_repr_no_space (printer_flow (flow (snd item)))) as H.
  unfold has_space in H. rewrite H. now destruct (fst item).
Qed.

Lemma scheduler_cmd_tail (items : list (Axis * pump)) :
  scheduler_cmd items =
  "G1" ++ tail_of (filter (fun item => enabled (snd item)) items)
       ++ String " " ("F" ++ float_repr printer_stepsize).
Proof.
  unfold scheduler_cmd.
  change (" F" ++ float_repr printer_stepsize)
    with (String " " ("F" ++ float_repr printer_stepsize)).
  rewrite <- (append_assoc "G1"). f_equal.
  generalize "G1" as acc.
  induction items as [|[a p] items IH]; intros acc; simpl.
  - now rewrite append_nil_r.
  - rewrite IH. destruct (enabled p); simpl; [| reflexivity].
    unfold rate_field; simpl. rewrite !append_assoc. simpl.
    now rewrite !append_assoc.
Qed.

Lemma fields_tail (items : list (Axis * pump)) (a last : string) :
  has_space a = false -> has_space last = false ->
  fields (a ++ tail_of items ++ String " " last) = a :: (map rate_field items ++ [last])%list.
Proof.
  revert a. induction items as [|item items IH]; intros a Ha Hl; simpl.
  - now rewrite fields_cons, fields_one.
  - rewrite fields_cons by assumption. f_equal.
    rewrite append_assoc. apply IH; [apply rate_field_no_space | assumption].
Qed.

Lemma period_field : float_repr printer_stepsize = "0.016666666666666666".
Proof. vm_compute. reflexivity. Qed.

Lemma keys_three (items : list (Axis * pump)) :
  map fst items = [AX; AY; AZ] ->
  exists px py pz, items = [(AX, px); (AY, py); (AZ, pz)].
Proof.
  destruct items as [|[a1 p1] [|[a2 p2] [|[a3 p3] [|]]]]; simpl; try discriminate.
  intros H. injection H as -> -> ->. now exists p1, p2, p3.
Qed.

(** C1: whatever the enabled flags, the command a tick hands to
    [send_gcode] is [G1], then one rate field for each enabled axis in the
    order X, Y, Z, then the single period field; with every axis disabled
    it is [G1] and the period field alone. *)
Theorem C1_motion_fields (MOCK_MODE : bool) (w : world) :
  map fst (pumps w) = [AX; AY; AZ] ->
  let cmd := scheduler_cmd (pumps w) in
  (connected w = true -> cancelled w = false ->
   scheduler_tick MOCK_MODE w =
   (sleep stepsize ;; with_lock (send_gcode MOCK_MODE cmd)) w)
  /\ fields cmd =
     "G1" :: (flat_map (axis_fields (pumps w)) [AX; AY; AZ]
              ++ ["F0.016666666666666666"])%list
  /\ ((forall a p, pumps_find a (pumps w) = Some p -> enabled p = false) ->
      cmd = "G1 F0.016666666666666666").
Proof.
  intros Hk cmd. split; [| split].
  - intros Hc Hn. unfold scheduler_tick, with_lock, bind, read, sleep, emit, modify.
    simpl. destruct (lock w); [reflexivity |]. simpl. now rewrite Hc, Hn.
  - subst cmd. rewrite scheduler_cmd_tail, period_field.
    rewrite fields_tail by reflexivity. f_equal. f_equal.
    destruct (keys_three _ Hk) as (px & py & pz & ->).
    unfold axis_fields; simpl.
    destruct (enabled px), (enabled py), (enabled pz); reflexivity.
  - intros Hoff. subst cmd. rewrite scheduler_cmd_tail, period_field.
    destruct (keys_three _ Hk) as (px & py & pz & E). rewrite E in *.
    cbn [filter snd].
    rewrite (Hoff AX px), (Hoff AY py), (Hoff AZ pz) by reflexivity.
    reflexivity.
Qed.


(** * Cancelling *)

Ltac unfold_m :=
  unfold with_lock, for_each, pump_store, pump_load, config, print, sleep,
    assign_connected, emit, read, modify, raise, ret, bind in *.

(** C10: cancelling while disconnected still latches [cancelled] and
    zeroes every flow, and sends nothing: no call reaches the port and no
    command is echoed. *)
Theorem C10_cancel_while_disconnected (MOCK_MODE : bool) (w : world) :
  well_formed w ->
  connected w = false ->
  let r := fst (cancel_and_reset MOCK_MODE w) in
  let w' := snd (cancel_and_reset MOCK_MODE w) in
  r = Done tt
  /\ cancelled w' = true
  /\ (forall a, flow_of w' a = Some 0%float)
  /\ added w
       [Acquire; Store AX Fflow; Store AY Fflow; Store AZ Fflow;
        Print "[!] Cancelled all commands and sent reset."; Release] w'
  /\ device w' = device w.
Proof.
  intros [Hl Hk] Hc.
  destruct (keys_three _ Hk) as (px & py & pz & Hp).
  unfold cancel_and_reset, send_gcode, flow_of, added. unfold_m.
  destruct w; simpl in *; subst. simpl.
  rewrite <- !app_assoc. simpl.
  repeat split. intros []; reflexivity.
Qed.

(** ** What every call preserves *)

Section Stable.
Variable MOCK_MODE : bool.
Variable py_float : string -> option float.
Variable I : world -> Prop.
Hypothesis HI : insensitive I.

Lemma stable_ret {A : Type} (a : A) : stable I (ret a).
Proof. intros w Hw. split; [exact Hw | discriminate]. Qed.

Lemma stable_raise {A : Type} (e : exn) : stable I (@raise A e).
Proof. intros w Hw. split; [exact Hw | discriminate]. Qed.

Lemma stable_read {A : Type} (f : world -> A) : stable I (read f).
Proof. intros w Hw. split; [exact Hw | discriminate]. Qed.

Lemma stable_modify (f : world -> world) :
  (forall w, I w -> I (f w)) -> stable I (modify f).
Proof. intros Hf w Hw. split; [now apply Hf | discriminate]. Qed.

Lemma stable_bind {A B : Type} (m : M A) (k : A -> M B) :
  stable I m -> (forall a, stable I (k a)) -> stable I (bind m k).
Proof.
  intros Hm Hk w Hw. unfold bind.
  destruct (Hm w Hw) as [H1 H2].
  destruct (m w) as [[a | e |] w1]; simpl in *.
  - now apply Hk.
  - split; [exact H1 | discriminate].
  - now contradiction H2.
Qed.

Lemma stable_try_except {A : Type} (body : M A) (handler : exn -> M A) :
  stable I body -> (forall e, stable I (handler e)) -> stable I (try_except body handler).
Proof.
  intros Hb Hh w Hw. unfold try_except.
  destruct (Hb w Hw) as [H1 H2].
  destruct (body w) as [[a | e |] w1]; simpl in *.
  - split; [exact H1 | discriminate].
  - now apply Hh.
  - now contradiction H2.
Qed.

Lemma stable_for_each {A : Type} (l : list A) (body : A -> M unit) :
  (forall x, stable I (body x)) -> stable I (for_each l body).
Proof.
  intros Hb. induction l as [|x l IH]; simpl.
  - apply stable_ret.
  - apply stable_bind; [apply Hb | intros _; exact IH].
Qed.

Lemma stable_emit (e : event) : stable I (emit e).
Proof. apply stable_modify. intros w. apply HI. Qed.

Lemma stable_config (f : widgets -> widgets) : stable I (config f).
Proof. apply stable_modify. intros w. apply HI. Qed.

Lemma stable_serial (c : serial_call) : stable I (serial c).
Proof.
  destruct HI as (_ & _ & _ & Hd & _ & Hl & _).
  intros w Hw. unfold serial.
  destruct (device w) as [|[|msg] rest]; simpl; split; try discriminate;
    auto.
Qed.

Lemma stable_pump_load (a : Axis) : stable I (pump_load a).
Proof.
  intros w Hw. unfold pump_load.
  destruct (pumps_find a (pumps w)); simpl; split; try discriminate; exact Hw.
Qed.

Lemma stable_pump_store (a : Axis) (f : field) (upd : pump -> pump) :
  stable I (pump_store a f upd).
Proof.
  unfold pump_store.
  apply stable_bind; [apply stable_pump_load | intros p].
  apply stable_bind; [| intros _; apply stable_emit].
  apply stable_modify. intros w. apply HI.
Qed.

Lemma stable_syringe_load (id : string) : stable I (syringe_load id).
Proof.
  unfold syringe_load.
  destruct (dict_find id syringes); [apply stable_ret | apply stable_raise].
Qed.

Lemma stable_send_gcode (command : string) : stable I (send_gcode MOCK_MODE command).
Proof.
  unfold send_gcode.
  apply stable_bind; [apply stable_read | intros [|]; [| apply stable_ret]].
  apply stable_bind; [apply stable_read | intros s].
  apply stable_bind; [| intros _; apply stable_emit].
  destruct s; [destruct (negb MOCK_MODE); [apply stable_serial |] |]; apply stable_ret.
Qed.

Lemma stable_toggle_pump (a : Axis) : stable I (toggle_pump a).
Proof.
  unfold toggle_pump.
  apply stable_bind; [apply stable_pump_load | intros p].
  apply stable_bind; [apply stable_pump_store | intros _].
  apply stable_bind; [apply stable_pump_load | intros q].
  apply stable_bind; [apply stable_config | intros _; apply stable_emit].
Qed.

Lemma stable_disconnect_serial : stable I (disconnect_serial MOCK_MODE).
Proof.
  unfold disconnect_serial, assign_connected.
  apply stable_bind; [apply stable_read | intros s].
  apply stable_bind.
  - destruct s; [destruct (negb MOCK_MODE) |]; try apply stable_ret.
    apply stable_bind; [apply stable_serial | intros _].
    apply stable_modify. intros w. apply HI.
  - intros _. apply stable_bind; [| intros _].
    + apply stable_bind; [apply stable_modify; intros w; apply HI | intros _].
      apply stable_emit.
    + apply stable_bind; [apply stable_config | intros _; apply stable_emit].
Qed.

Lemma stable_m92_loop (axes : list Axis) (parts : list string) :
  stable I (m92_loop axes parts).
Proof.
  revert parts. induction axes as [|a axes IH]; intros parts; simpl.
  - apply stable_ret.
  - apply stable_bind; [apply stable_pump_load | intros p].
    apply stable_bind; [apply stable_syringe_load | intros s]. apply IH.
Qed.

Lemma stable_float_of_str (text : string) : stable I (float_of_str py_float text).
Proof.
  unfold float_of_str. destruct (py_float text); [apply stable_ret | apply stable_raise].
Qed.
End Stable.

Lemma pumps_replace_keys (a : Axis) (p : pump) (d : list (Axis * pump)) :
  map fst (pumps_replace a p d) = map fst d.
Proof.
  induction d as [|[b q] d IH]; simpl; [reflexivity |].
  destruct (axis_eqb a b); simpl; [reflexivity | now rewrite IH].
Qed.

Lemma Inv_insensitive (held latched : bool) (keys : list Axis) :
  insensitive (Inv held latched keys).
Proof.
  unfold insensitive, Inv. repeat split; intros; simpl;
    try rewrite pumps_replace_keys; tauto.
Qed.

Ltac stab :=
  repeat first
    [ apply Inv_insensitive
    | apply stable_ret | apply stable_raise | apply stable_read
    | apply stable_emit | apply stable_config | apply stable_serial
    | apply stable_pump_load | apply stable_pump_store | apply stable_syringe_load
    | apply stable_send_gcode | apply stable_m92_loop | apply stable_float_of_str
    | apply stable_toggle_pump | apply stable_disconnect_serial
    | apply stable_for_each; intros ?
    | apply stable_bind; [| intros ?]
    | apply stable_try_except; [| intros ?]
    | apply stable_modify; intros ?; apply Inv_insensitive
    | match goal with
      | |- stable _ (match ?x with _ => _ end) => destruct x
      | |- stable _ (if ?x then _ else _) => destruct x
      end ].

Lemma with_lock_stable {A : Type} (body : M A) (latched : bool) (keys : list Axis) :
  stable (Inv true latched keys) body ->
  stable (Inv false latched keys) (with_lock body).
Proof.
  intros Hb w (Hl & Hk & Hc). unfold with_lock. rewrite Hl.
  assert (H0 : Inv true latched keys (log Acquire (set_lock true w))).
  { repeat split; assumption. }
  destruct (Hb _ H0) as [(_ & Hk1 & Hc1) Hn].
  destruct (body (log Acquire (set_lock true w))) as [[a | e |] w1]; simpl in *.
  - repeat split; try assumption; discriminate.
  - repeat split; try assumption; discriminate.
  - now contradiction Hn.
Qed.

Lemma stable_scheduler_tick (MOCK_MODE latched : bool) (keys : list Axis) :
  stable (Inv false latched keys) (scheduler_tick MOCK_MODE).
Proof.
  unfold scheduler_tick.
  apply stable_bind; [stab | intros _].
  apply with_lock_stable. stab.
Qed.

Lemma stable_cancel_and_reset (MOCK_MODE latched : bool) (keys : list Axis) :
  stable (Inv false latched keys) (cancel_and_reset MOCK_MODE).
Proof. unfold cancel_and_reset. apply with_lock_stable. stab. Qed.

Lemma stable_apply_rates (MOCK_MODE : bool) (py_float : string -> option float)
    (latched : bool) (keys : list Axis) :
  stable (Inv false latched keys) (apply_rates MOCK_MODE py_float).
Proof. unfold apply_rates. apply with_lock_stable. stab. Qed.

Lemma stable_connect_serial (MOCK_MODE held : bool) (keys : list Axis) :
  stable (Inv held false keys) (connect_serial MOCK_MODE).
Proof.
  unfold connect_serial, assign_connected.
  apply stable_bind; [| intros _; stab].
  apply stable_modify. intros w (Hl & Hk & _). repeat split; try assumption.
  discriminate.
Qed.

Lemma stable_command (I : world -> Prop) (m : M unit) (w : world) :
  insensitive I -> stable I m -> I w -> I (command m w).
Proof.
  intros HI Hm Hw. unfold command.
  destruct (Hm w Hw) as [H _].
  destruct (m w) as [[[] | e |] w1]; simpl in *; try assumption.
  now apply HI.
Qed.

(** Every step other than [Connect] keeps the lock free, the keys of
    [pumps] and, once set, the [cancelled] latch. *)
Lemma step_Inv (MOCK_MODE : bool) (py_float : string -> option float)
    (latched : bool) (keys : list Axis) (a : action) (w : world) :
  a <> Connect \/ latched = false ->
  Inv false latched keys w ->
  Inv false latched keys (step MOCK_MODE py_float a w).
Proof.
  intros Ha Hw.
  pose proof (Inv_insensitive false latched keys) as HI.
  destruct a; simpl.
  - destruct (scheduler_alive w); [| exact Hw].
    destruct (stable_scheduler_tick MOCK_MODE latched keys w Hw) as [H _].
    destruct (scheduler_tick MOCK_MODE w) as [[[] | e |] w1]; cbn [fst snd] in H;
      assumption.
  - destruct Ha as [Ha | ->]; [now contradiction Ha |].
    apply stable_command; [exact HI | apply stable_connect_serial | exact Hw].
  - apply stable_command; [exact HI | stab | exact Hw].
  - apply stable_command; [exact HI | apply stable_apply_rates | exact Hw].
  - apply stable_command; [exact HI | apply stable_cancel_and_reset | exact Hw].
  - apply stable_command; [exact HI | stab | exact Hw].
  - now apply HI.
  - now apply HI.
Qed.

Lemma run_Inv (MOCK_MODE : bool) (py_float : string -> option float)
    (latched : bool) (keys : list Axis) (acts : list action) (w : world) :
  ~ In Connect acts \/ latched = false ->
  Inv false latched keys w ->
  Inv false latched keys (run MOCK_MODE py_float acts w).
Proof.
  unfold run. revert w.
  induction acts as [|a acts IH]; intros w Ha Hw; simpl; [exact Hw |].
  apply IH.
  - destruct Ha as [Ha | Ha]; [left | now right].
    intros Hin. apply Ha. now right.
  - apply step_Inv; [| exact Hw].
    destruct Ha as [Ha | Ha]; [left | now right].
    intros ->. apply Ha. now left.
Qed.

(** X14: The states the running program reaches are well formed. *)
Lemma run_well_formed (MOCK_MODE : bool) (py_float : string -> option float)
    (acts : list action) (w : world) :
  well_formed w -> well_formed (run MOCK_MODE py_float acts w).
Proof.
  intros [Hl Hk].
  destruct (run_Inv MOCK_MODE py_float false [AX; AY; AZ] acts w) as (H1 & H2 & _).
  - now right.
  - repeat split; [assumption | assumption | discriminate].
  - now split.
Qed.

Lemma bind_modify {B : Type} (f : world -> world) (k : unit -> M B) (w : world) :
  bind (modify f) k w = k tt (f w).
Proof. reflexivity. Qed.

Lemma cancel_latches (MOCK_MODE : bool) (w : world) :
  lock w = false ->
  Inv false true (map fst (pumps w)) (snd (cancel_and_reset MOCK_MODE w)).
Proof.
  intros Hl. unfold cancel_and_reset, with_lock. rewrite Hl, bind_modify.
  match goal with
  | |- context [match ?m ?w0 with _ => _ end] =>
      assert (Hs : stable (Inv true true (map fst (pumps w))) m) by stab;
      destruct (Hs w0) as [(_ & Hk & Hc) Hn];
      [ repeat split; reflexivity
      | destruct (m w0) as [[[] | e |] w1]; simpl in * ]
  end.
  - repeat split; assumption.
  - repeat split; assumption.
  - now contradiction Hn.
Qed.

(** C2: once [cancel_and_reset] has run, the latch stays set through any
    sequence of steps without [Connect], and a tick taken then, connected
    or not, only sleeps and takes the lock: it calls nothing on the port
    and prints nothing.  [connect_serial] clears the latch. *)
Theorem C2_cancelled_latch (MOCK_MODE : bool) (py_float : string -> option float)
    (w : world) (acts : list action) :
  lock w = false ->
  ~ In Connect acts ->
  let w2 := run MOCK_MODE py_float acts (snd (cancel_and_reset MOCK_MODE w)) in
  cancelled w2 = true
  /\ fst (scheduler_tick MOCK_MODE w2) = Done tt
  /\ added w2 [Sleep stepsize; Acquire; Release] (snd (scheduler_tick MOCK_MODE w2))
  /\ device (snd (scheduler_tick MOCK_MODE w2)) = device w2
  /\ cancelled (snd (connect_serial MOCK_MODE w2)) = false.
Proof.
  intros Hl Ha w2.
  destruct (run_Inv MOCK_MODE py_float true _ acts _ (or_introl Ha)
              (cancel_latches MOCK_MODE w Hl)) as (Hl2 & _ & Hc2).
  fold w2 in Hl2, Hc2. specialize (Hc2 eq_refl).
  clearbody w2. split; [exact Hc2 |].
  unfold scheduler_tick, added. unfold_m. simpl. rewrite Hl2. simpl. rewrite Hc2.
  rewrite andb_false_r. simpl. rewrite <- !app_assoc. simpl.
  repeat split.
  unfold connect_serial, try_except, send_gcode, serial. unfold_m.
  destruct MOCK_MODE; simpl; [reflexivity |].
  destruct w2 as [s c k l ps g al dv tr].
  destruct dv as [|[|m1] [|[|m2] [|[|m3] [|[|m4] [|[|m5] [|[|m6] dv]]]]]];
    reflexivity.
Qed.

(** * Applying rates *)

Ltac unfold_w :=
  unfold set_ser, set_connected, set_cancelled, set_lock, set_pumps, set_gui,
    set_scheduler_alive, set_device, log in *.


Lemma bind_done {A B : Type} (m : M A) (k : A -> M B) (w : world) (a : A) (w1 : world) :
  m w = (Done a, w1) -> bind m k w = k a w1.
Proof. intros E. unfold bind. now rewrite E. Qed.

Lemma apply_rates_split (MOCK_MODE : bool) (py_float : string -> option float) :
  apply_rates MOCK_MODE py_float =
  with_lock
    (store_rates py_float ;;
     m92_parts <- m92_loop [AX; AY; AZ] [] ;;
     send_gcode MOCK_MODE ("M92 " ++ String.concat " " m92_parts) ;;
     standing_commands MOCK_MODE).
Proof. reflexivity. Qed.

Arguments selected_id : simpl never.

Lemma syringe_load_selected (choice : string) :
  exists s, dict_find (selected_id choice) syringes = Some s /\ steps s = selected_steps choice.
Proof.
  unfold selected_steps, selected_id, dict_get_default, syringe_name_to_id. simpl.
  repeat match goal with
         | |- context [String.eqb choice ?x] => destruct (String.eqb choice x)
         end; simpl; eexists; split; reflexivity.
Qed.

Arguments dict_find : simpl never.

(** The first loop: it raises nothing, stores the flow and the table id of
    each axis, shows the flows, and leaves the rest of the state alone. *)
Lemma store_rates_run (py_float : string -> option float) (w : world) (px py pz : pump) :
  pumps w = [(AX, px); (AY, py); (AZ, pz)] ->
  let fl a := parsed_flow py_float (flow_entries (gui w) a) in
  let id a := selected_id (syringe_vars (gui w) a) in
  exists w1,
    store_rates py_float w = (Done tt, w1)
    /\ pumps w1 = [ (AX, set_syringe (id AX) (set_flow (fl AX) px));
                    (AY, set_syringe (id AY) (set_flow (fl AY) py));
                    (AZ, set_syringe (id AZ) (set_flow (fl AZ) pz)) ]
    /\ added w [Store AX Fflow; Store AX Fsyringe; Store AY Fflow;
                Store AY Fsyringe; Store AZ Fflow; Store AZ Fsyringe] w1
    /\ ser w1 = ser w /\ connected w1 = connected w /\ cancelled w1 = cancelled w
    /\ lock w1 = lock w /\ device w1 = device w
    /\ scheduler_alive w1 = scheduler_alive w
    /\ syringe_vars (gui w1) = syringe_vars (gui w).
Proof.
  intros Hp fl id. subst fl id.
  unfold store_rates, try_except, float_of_str, parsed_flow, selected_id, added. unfold_m.
  destruct w as [s c k l ps g al dv tr]; simpl in *; subst ps.
  destruct (py_float (flow_entries g AX)); simpl;
    destruct (py_float (flow_entries g AY)); simpl;
    destruct (py_float (flow_entries g AZ)); simpl;
    eexists; (split; [reflexivity |]); simpl; rewrite <- !app_assoc;
    repeat split.
Qed.

Lemma m92_loop_run (w : world) (px py pz : pump) (cx cy cz : string) :
  pumps w = [(AX, px); (AY, py); (AZ, pz)] ->
  syringe px = selected_id cx -> syringe py = selected_id cy -> syringe pz = selected_id cz ->
  m92_loop [AX; AY; AZ] [] w =
  (Done ["X" ++ int_str (- Z.abs (selected_steps cx));
         "Y" ++ int_str (- Z.abs (selected_steps cy));
         "Z" ++ int_str (selected_steps cz)], w).
Proof.
  intros Hp Hx Hy Hz.
  destruct (syringe_load_selected cx) as (sx & Ex & <-).
  destruct (syringe_load_selected cy) as (sy & Ey & <-).
  destruct (syringe_load_selected cz) as (sz & Ez & <-).
  unfold m92_loop, syringe_load. unfold_m.
  destruct w as [s c k l ps g al dv tr]; simpl in Hp; subst ps. simpl.
  rewrite Hx, Ex. simpl. rewrite Hy, Ey. simpl. rewrite Hz, Ez. reflexivity.
Qed.

(** What [apply_rates] does, for a window whose choices are [cx], [cy],
    [cz]: the stores, then the M92 line of their steps constants, then
    the three standing commands, all under the lock. *)
Lemma apply_rates_calibration (MOCK_MODE : bool) (py_float : string -> option float)
    (w : world) :
  well_formed w ->
  let k a := selected_steps (syringe_vars (gui w) a) in
  apply_rates MOCK_MODE py_float w =
  with_lock
    (store_rates py_float ;;
     send_gcode MOCK_MODE (m92_text (k AX) (k AY) (k AZ)) ;;
     standing_commands MOCK_MODE) w.
Proof.
  intros [Hl Hk] k. rewrite apply_rates_split.
  destruct (keys_three _ Hk) as (px & py & pz & Hp).
  destruct (store_rates_run py_float (log Acquire (set_lock true w)) px py pz Hp)
    as (w1 & E & Hp1 & _ & _ & _ & _ & _ & _ & _ & Hg).
  unfold with_lock. rewrite Hl.
  rewrite !(bind_done _ _ _ _ _ E).
  rewrite (bind_done _ _ _ _ _ (m92_loop_run w1 _ _ _ _ _ _ Hp1 eq_refl eq_refl eq_refl)).
  subst k. cbn [gui log set_lock]. reflexivity.
Qed.

Lemma int_str_no_space (n : Z) : has_space (int_str n) = false.
Proof.
  unfold int_str, has_space.
  destruct (n <? 0); simpl; now rewrite plain_digits_str by exact blank_digits.
Qed.

(** Splitting a line on spaces undoes joining space-free parts with
    spaces. *)
Lemma fields_concat (parts : list string) :
  parts <> [] ->
  Forall (fun s => has_space s = false) parts ->
  fields (String.concat " " parts) = parts.
Proof.
  induction parts as [|x [|y r] IH]; intros Hne Hall.
  - now contradiction Hne.
  - simpl. apply fields_one. now inversion Hall.
  - inversion Hall as [|? ? Hx Hr]; subst.
    change (String.concat " " (x :: y :: r))
      with (x ++ String " " (String.concat " " (y :: r))).
    rewrite fields_cons by exact Hx. f_equal.
    apply IH; [discriminate | exact Hr].
Qed.

Lemma field_no_space (c : ascii) (n : Z) :
  is_blank c = false -> has_space (String c (int_str n)) = false.
Proof.
  intros Hc. unfold has_space. simpl. fold (has_space (int_str n)).
  now rewrite Hc, int_str_no_space.
Qed.

(** C3: whatever the three menus hold, the M92 line [apply_rates] hands
    to [send_gcode] carries minus the magnitude of the steps constant for X
    and for Y and the constant itself for Z; 20927 on all three gives
    [X-20927 Y-20927 Z20927]. *)
Theorem C3_calibration_command (MOCK_MODE : bool) (py_float : string -> option float)
    (w : world) :
  well_formed w ->
  let k a := selected_steps (syringe_vars (gui w) a) in
  let cmd := m92_text (k AX) (k AY) (k AZ) in
  apply_rates MOCK_MODE py_float w =
  with_lock
    (store_rates py_float ;; send_gcode MOCK_MODE cmd ;; standing_commands MOCK_MODE) w
  /\ fields cmd =
     ["M92"; "X" ++ int_str (- Z.abs (k AX)); "Y" ++ int_str (- Z.abs (k AY));
      "Z" ++ int_str (k AZ)]
  /\ selected_steps "10 mL HenkeJect" = 20927
  /\ m92_text 20927 20927 20927 = "M92 X-20927 Y-20927 Z20927".
Proof.
  intros Hw k cmd. split; [| split; [| split]].
  - now apply apply_rates_calibration.
  - subst cmd. unfold m92_text.
    change ("M92 " ++ String.concat " " ?l) with (String.concat " " ("M92" :: l)).
    apply fields_concat; [discriminate |].
    repeat constructor; apply field_no_space; reflexivity.
  - reflexivity.
  - vm_compute. reflexivity.
Qed.

Lemma calibrate_run (MOCK_MODE : bool) (cmd : string) (w : world) :
  let r := fst ((send_gcode MOCK_MODE cmd ;; standing_commands MOCK_MODE) w) in
  let w' := snd ((send_gcode MOCK_MODE cmd ;; standing_commands MOCK_MODE) w) in
  pumps w' = pumps w
  /\ r <> Blocked
  /\ (forall text, r <> Raised (ValueError text))
  /\ (transport_quiet MOCK_MODE 4 w -> r = Done tt).
Proof.
  unfold standing_commands, send_gcode, serial, transport_quiet. unfold_m.
  destruct w as [s c k l ps g al dv tr]; simpl.
  destruct c;
    [| simpl; split; [reflexivity | repeat split; intros; discriminate || reflexivity]].
  destruct s as [h|];
    [| simpl; split; [reflexivity | repeat split; intros; discriminate || reflexivity]].
  destruct MOCK_MODE;
    [simpl; split; [reflexivity | repeat split; intros; discriminate || reflexivity] |].
  destruct dv as [|[|m1] [|[|m2] [|[|m3] [|[|m4] dv]]]]; simpl;
    (split; [reflexivity | split; [discriminate | split; [intros; discriminate |]]]);
    intros [H | [H | [H | H]]]; try discriminate; reflexivity.
Qed.

Lemma calibrate_fails (MOCK_MODE : bool) (cmd : string) (w : world) :
  MOCK_MODE = false -> connected w = true -> ser w <> None ->
  forallb is_ok (firstn 4 (device w)) = false ->
  exists msg,
    In (Fail msg) (firstn 4 (device w))
    /\ fst ((send_gcode MOCK_MODE cmd ;; standing_commands MOCK_MODE) w)
       = Raised (SerialException msg).
Proof.
  destruct w as [s c k l ps g al dv tr]; simpl.
  intros -> -> Hs.
  destruct s as [h|]; [clear Hs | now contradiction Hs].
  unfold standing_commands, send_gcode, serial. unfold_m.
  destruct dv as [|[|m1] [|[|m2] [|[|m3] [|[|m4] dv]]]]; simpl;
    intros H; try discriminate;
    (eexists; split; [| reflexivity]);
    repeat first [left; reflexivity | right].
Qed.

(** C7, as the code has it: a flow entry that [float] rejects is stored
    as [0.0]; every axis still gets its parsed flow and its syringe id; no
    [ValueError] leaves [apply_rates]; it returns normally whenever the
    port does not fail; and when one of its four writes on the real port
    fails, it raises the exception of that write. *)
Theorem C7_unparseable_flow (MOCK_MODE : bool) (py_float : string -> option float)
    (w : world) (a : Axis) :
  well_formed w ->
  py_float (flow_entries (gui w) a) = None ->
  let r := fst (apply_rates MOCK_MODE py_float w) in
  let w' := snd (apply_rates MOCK_MODE py_float w) in
  flow_of w' a = Some 0%float
  /\ (forall b, flow_of w' b = Some (parsed_flow py_float (flow_entries (gui w) b))
                /\ syringe_of w' b = Some (selected_id (syringe_vars (gui w) b)))
  /\ (forall text, r <> Raised (ValueError text))
  /\ (transport_quiet MOCK_MODE 4 w -> r = Done tt)
  /\ (MOCK_MODE = false -> connected w = true -> ser w <> None ->
      forallb is_ok (firstn 4 (device w)) = false ->
      exists msg, In (Fail msg) (firstn 4 (device w)) /\ r = Raised (SerialException msg)).
Proof.
  intros Hw Ha r w'.
  assert (Hall : forall b,
             flow_of w' b = Some (parsed_flow py_float (flow_entries (gui w) b))
             /\ syringe_of w' b = Some (selected_id (syringe_vars (gui w) b))
             /\ (forall text, r <> Raised (ValueError text))
             /\ (transport_quiet MOCK_MODE 4 w -> r = Done tt)
             /\ (MOCK_MODE = false -> connected w = true -> ser w <> None ->
                 forallb is_ok (firstn 4 (device w)) = false ->
                 exists msg, In (Fail msg) (firstn 4 (device w))
                             /\ r = Raised (SerialException msg))).
  { subst r w'. rewrite (apply_rates_calibration MOCK_MODE py_float w Hw).
    destruct Hw as [Hl Hk].
    destruct (keys_three _ Hk) as (px & py & pz & Hp).
    destruct (store_rates_run py_float (log Acquire (set_lock true w)) px py pz Hp)
      as (w1 & E & Hp1 & _ & Hs & Hc & _ & _ & Hd & _).
    unfold with_lock. rewrite Hl. rewrite (bind_done _ _ _ _ _ E).
    pose proof (calibrate_run MOCK_MODE
                  (m92_text (selected_steps (syringe_vars (gui w) AX))
                     (selected_steps (syringe_vars (gui w) AY))
                     (selected_steps (syringe_vars (gui w) AZ))) w1) as Hrun.
    pose proof (calibrate_fails MOCK_MODE
                  (m92_text (selected_steps (syringe_vars (gui w) AX))
                     (selected_steps (syringe_vars (gui w) AY))
                     (selected_steps (syringe_vars (gui w) AZ))) w1) as Hfail.
    cbv beta zeta in Hrun, Hfail |- *.
    destruct ((send_gcode MOCK_MODE
                 (m92_text (selected_steps (syringe_vars (gui w) AX))
                    (selected_steps (syringe_vars (gui w) AY))
                    (selected_steps (syringe_vars (gui w) AZ))) ;;
               standing_commands MOCK_MODE) w1) as [ro w2].
    cbn [fst snd] in Hrun, Hfail. destruct Hrun as (Hpw & Hnb & Hnv & Hq).
    assert (Hq' : transport_quiet MOCK_MODE 4 w -> ro = Done tt).
    { intros Hqw. apply Hq. unfold transport_quiet in *.
      rewrite Hs, Hc, Hd. exact Hqw. }
    assert (Hf' : MOCK_MODE = false -> connected w = true -> ser w <> None ->
                  forallb is_ok (firstn 4 (device w)) = false ->
                  exists msg, In (Fail msg) (firstn 4 (device w))
                              /\ ro = Raised (SerialException msg)).
    { intros Hm Hcw Hsw Hdw. rewrite Hs, Hc, Hd in Hfail.
      exact (Hfail Hm Hcw Hsw Hdw). }
    intros b.
    assert (Hpw' : pumps (log Release (set_lock false w2)) = pumps w1) by exact Hpw.
    assert (Hres : match ro with
                   | Blocked => (Blocked, w2)
                   | _ => (ro, log Release (set_lock false w2))
                   end = (ro, log Release (set_lock false w2))).
    { destruct ro as [[] | e |]; try reflexivity. now contradiction Hnb. }
    rewrite Hres. cbn [fst snd].
    unfold flow_of, syringe_of. rewrite Hpw', Hp1. cbn [gui log set_lock].
    split; [destruct b; reflexivity | split; [destruct b; reflexivity |]].
    split; [assumption | split; assumption]. }
  split; [| split; [| split; [| split]]].
  - destruct (Hall a) as (H & _). rewrite H. unfold parsed_flow. now rewrite Ha.
  - intros b. destruct (Hall b) as (H1 & H2 & _). now split.
  - apply (Hall a).
  - apply (Hall a).
  - apply (Hall a).
Qed.

(** * Exponent markers *)

Lemma tail_of_exponent (items : list (Axis * pump)) :
  has_exponent (tail_of items) =
  existsb (fun item => has_exponent (float_repr (printer_flow (flow (snd item))))) items.
Proof.
  unfold has_exponent.
  induction items as [|[a p] items IH]; [reflexivity |].
  cbn [tail_of fold_right existsb]. fold (tail_of items).
  unfold rate_field. rewrite !str_exists_app, IH. cbn [fst snd].
  now destruct a.
Qed.

Lemma existsb_filter {A : Type} (f g : A -> bool) (l : list A) :
  existsb g (filter f l) = existsb (fun x => f x && g x) l.
Proof.
  induction l as [|x l IH]; [reflexivity |].
  simpl. destruct (f x); simpl; now rewrite IH.
Qed.

Lemma m92_text_no_exponent (kx ky kz : Z) : has_exponent (m92_text kx ky kz) = false.
Proof.
  unfold m92_text. cbn [String.concat]. unfold has_exponent.
  rewrite !str_exists_app.
  pose proof int_str_no_exponent as H. unfold has_exponent in H.
  now rewrite !H.
Qed.

(** C8, as the code has it: the M92 line never carries an exponent
    marker, nor does the period field; the motion line carries one exactly
    when the [repr] of the rate of some enabled axis does, and [repr]
    writes one exactly for a finite non-zero value whose shortest decimal
    has its point more than three places before, or more than sixteen
    places into, its digits.  A rate that is not finite has no exponent
    marker and no digits either: it is written [inf], [-inf] or [nan]; a
    zero is written [0.0] or [-0.0]. *)
Theorem C8_exponent_markers (MOCK_MODE : bool) (py_float : string -> option float)
    (w : world) (items : list (Axis * pump)) :
  well_formed w ->
  (let k a := selected_steps (syringe_vars (gui w) a) in
   let cmd := m92_text (k AX) (k AY) (k AZ) in
   apply_rates MOCK_MODE py_float w =
   with_lock
     (store_rates py_float ;; send_gcode MOCK_MODE cmd ;; standing_commands MOCK_MODE) w
   /\ has_exponent cmd = false)
  /\ has_exponent (scheduler_cmd items) =
     existsb (fun item => enabled (snd item)
                          && has_exponent (float_repr (printer_flow (flow (snd item)))))
       items
  /\ (forall x : float,
        has_exponent (float_repr x) =
        match Prim2SF x with
        | S754_finite _ m e => use_exp (shortest m e)
        | _ => false
        end)
  /\ has_exponent ("F" ++ float_repr printer_stepsize) = false
  /\ (forall x : float,
        match Prim2SF x with
        | S754_nan => float_repr x = "nan"
        | S754_infinity s => float_repr x = if s then "-inf" else "inf"
        | S754_zero s => float_repr x = if s then "-0.0" else "0.0"
        | S754_finite s m e =>
            float_repr x = (if s then "-" else "") ++ repr_finite (shortest m e)
        end).
Proof.
  intros Hw. split; [| split; [| split; [| split]]].
  - split; [now apply apply_rates_calibration | apply m92_text_no_exponent].
  - rewrite scheduler_cmd_tail. unfold has_exponent.
    rewrite !str_exists_app. fold (has_exponent (tail_of (filter (fun item => enabled (snd item)) items))).
    rewrite tail_of_exponent, existsb_filter.
    replace (str_exists is_exp_marker (String " " ("F" ++ float_repr printer_stepsize)))
      with false by (vm_compute; reflexivity).
    rewrite orb_false_r. reflexivity.
  - apply float_repr_exponent.
  - vm_compute. reflexivity.
  - intros x. unfold float_repr. now destruct (Prim2SF x).
Qed.

(** * Failing writes *)

Lemma tick_write_fails (w : world) (h : serial_handle) (msg : string)
    (rest : list reply) :
  lock w = false -> connected w = true -> cancelled w = false ->
  ser w = Some h -> device w = Fail msg :: rest ->
  exists w',
    scheduler_tick false w = (Raised (SerialException msg), w')
    /\ device w' = rest
    /\ scheduler_alive w' = scheduler_alive w
    /\ added w [Sleep stepsize; Acquire;
                Serial (Write (scheduler_cmd (pumps w) ++ LF)) (Fail msg); Release] w'.
Proof.
  destruct w as [s c k l ps g al dv tr]; simpl.
  intros -> -> -> -> ->.
  unfold scheduler_tick, send_gcode, serial, added. unfold_m. simpl.
  eexists. split; [reflexivity |]. simpl. rewrite <- !app_assoc. repeat split.
Qed.

Lemma tick_without_port (MOCK_MODE : bool) (w : world) :
  lock w = false -> MOCK_MODE = true \/ ser w = None ->
  let w' := snd (scheduler_tick MOCK_MODE w) in
  fst (scheduler_tick MOCK_MODE w) = Done tt
  /\ device w' = device w
  /\ serial_calls (trace w') = serial_calls (trace w).
Proof.
  destruct w as [s c k l ps g al dv tr]; simpl.
  intros -> H.
  assert (E : MOCK_MODE = true \/ s = None) by exact H. clear H.
  unfold scheduler_tick, send_gcode, serial, serial_calls. unfold_m.
  destruct c, k; simpl;
    try (rewrite ?filter_app; simpl; rewrite ?app_nil_r; repeat split; fail).
  destruct s as [h|]; simpl.
  - destruct E as [-> | E]; [| discriminate]. simpl.
    rewrite ?filter_app. simpl. rewrite ?app_nil_r. repeat split.
  - rewrite ?filter_app. simpl. rewrite ?app_nil_r. repeat split.
Qed.

Lemma tick_raises_only_on_write (MOCK_MODE : bool) (w : world) (e : exn) :
  fst (scheduler_tick MOCK_MODE w) = Raised e ->
  exists msg rest, e = SerialException msg /\ device w = Fail msg :: rest.
Proof.
  unfold scheduler_tick, send_gcode, serial. unfold_m.
  destruct w as [s c k l ps g al dv tr]; simpl.
  destruct l; simpl; [discriminate |].
  destruct c, k; simpl; try discriminate.
  destruct s as [h|]; simpl; [| discriminate].
  destruct MOCK_MODE; simpl; [discriminate |].
  destruct dv as [|[|msg] rest]; simpl; try discriminate.
  intros [= <-]. now exists msg, rest.
Qed.

(** C5, as the code has it.  With the real port open, [connected] set and
    [cancelled] clear, a write that the port fails makes the tick raise
    the port's exception: the tick made that one call on the port and no
    second one, the loop ends there whatever number of turns was still to
    come, and the thread, once dead, takes no further step.  In mock
    mode, or with no port open, a tick returns and makes no call on the
    port.  A tick raises nothing but the exception of a failed write. *)
Theorem C5_write_failure_ends_scheduler (MOCK_MODE : bool)
    (py_float : string -> option float) (w : world) :
  lock w = false ->
  (forall h msg rest,
      MOCK_MODE = false -> connected w = true -> cancelled w = false ->
      ser w = Some h -> device w = Fail msg :: rest ->
      let e := SerialException msg in
      let w' := snd (scheduler_tick MOCK_MODE w) in
      fst (scheduler_tick MOCK_MODE w) = Raised e
      /\ device w' = rest
      /\ added w [Sleep stepsize; Acquire;
                  Serial (Write (scheduler_cmd (pumps w) ++ LF)) (Fail msg); Release] w'
      /\ (forall n, scheduler MOCK_MODE (S n) w = (Raised e, w'))
      /\ (scheduler_alive w = true ->
          let w2 := step MOCK_MODE py_float Tick w in
          scheduler_alive w2 = false
          /\ added w' [Traceback e] w2
          /\ forall n, run MOCK_MODE py_float (repeat Tick n) w2 = w2))
  /\ (MOCK_MODE = true \/ ser w = None ->
      let w' := snd (scheduler_tick MOCK_MODE w) in
      fst (scheduler_tick MOCK_MODE w) = Done tt
      /\ device w' = device w
      /\ serial_calls (trace w') = serial_calls (trace w))
  /\ (forall e, fst (scheduler_tick MOCK_MODE w) = Raised e ->
      exists msg rest, e = SerialException msg /\ device w = Fail msg :: rest).
Proof.
  intros Hl. split; [| split].
  - intros h msg rest -> Hc Hk Hs Hd e w'.
    destruct (tick_write_fails w h msg rest Hl Hc Hk Hs Hd) as (w1 & E & Hd1 & Hal & Ha).
    subst e w'. rewrite E. cbn [fst snd].
    split; [reflexivity | split; [exact Hd1 | split; [exact Ha | split]]].
    + intros n. cbn [scheduler]. unfold bind. now rewrite E.
    + intros Halive. unfold added. simpl. rewrite Halive, E.
      cbn [scheduler_alive trace log set_scheduler_alive].
      split; [reflexivity | split; [reflexivity |]].
      induction n as [|n IH]; [reflexivity |]. simpl. exact IH.
  - now apply tick_without_port.
  - apply tick_raises_only_on_write.
Qed.

(** * Connecting *)

(** C6, as the code has it: in mock mode [connect_serial] assigns
    [connected] and sends nothing; on the real port, when the six calls
    succeed, it opens, waits two seconds, flushes the input, and only
    then assigns [connected] and writes the M92 reset and the three
    standing commands; when the opening or any later call fails it
    returns normally with [connected] false; and when the opening or the
    flush fails, [connected] is never assigned [True] on the way, only
    [False] by the handler. *)
Theorem C6_connect (MOCK_MODE : bool) (w : world) :
  let r := fst (connect_serial MOCK_MODE w) in
  let w' := snd (connect_serial MOCK_MODE w) in
  (MOCK_MODE = true ->
   r = Done tt /\ connected w' = true /\ cancelled w' = false
   /\ added w [SetConnected true; Print "[✓] Mock connected to virtual printer"] w'
   /\ device w' = device w)
  /\ (MOCK_MODE = false -> forallb is_ok (firstn 6 (device w)) = true ->
      r = Done tt /\ connected w' = true /\ cancelled w' = false
      /\ added w
           [Serial (Open "COM8" 115200 1) Ok; Sleep 2; Serial ResetInputBuffer Ok;
            SetConnected true;
            Print "[✓] Connected to printer on COM8";
            Serial (Write ("M92 X-0 Y-0 Z0" ++ LF)) Ok; Print ">> M92 X-0 Y-0 Z0";
            Serial (Write ("M302 S0" ++ LF)) Ok; Print ">> M302 S0";
            Serial (Write ("M211 S0" ++ LF)) Ok; Print ">> M211 S0";
            Serial (Write ("G91" ++ LF)) Ok; Print ">> G91"] w')
  /\ (MOCK_MODE = false -> forallb is_ok (firstn 6 (device w)) = false ->
      r = Done tt /\ connected w' = false)
  /\ (MOCK_MODE = false -> forall msg rest, device w = Ok :: Fail msg :: rest ->
      added w [Serial (Open "COM8" 115200 1) Ok; Sleep 2;
               Serial ResetInputBuffer (Fail msg); SetConnected false;
               Print ("[X] Could not connect: " ++ msg)] w')
  /\ (MOCK_MODE = false -> forall msg rest, device w = Fail msg :: rest ->
      ser w' = ser w
      /\ added w [Serial (Open "COM8" 115200 1) (Fail msg); SetConnected false;
                  Print ("[X] Could not connect: " ++ msg)] w').
Proof.
  intros r w'. subst r w'.
  unfold connect_serial, try_except, send_gcode, serial, added. unfold_m.
  destruct w as [s c k l ps g al dv tr].
  split; [| split; [| split; [| split]]]; intros ->; cbn [negb].
  - simpl. rewrite <- ?app_assoc. repeat split.
  - destruct dv as [|[|m1] [|[|m2] [|[|m3] [|[|m4] [|[|m5] [|[|m6] dv]]]]]]; simpl;
      intros H; try discriminate; rewrite <- ?app_assoc; repeat split.
  - destruct dv as [|[|m1] [|[|m2] [|[|m3] [|[|m4] [|[|m5] [|[|m6] dv]]]]]]; simpl;
      intros H; try discriminate; repeat split.
  - intros msg rest. simpl. intros ->. simpl. rewrite <- ?app_assoc. reflexivity.
  - intros msg rest. simpl. intros ->. simpl. rewrite <- ?app_assoc. repeat split.
Qed.

(** * Toggling *)

Lemma pumps_find_replace (a : Axis) (p q : pump) (d : list (Axis * pump)) :
  pumps_find a d = Some p -> pumps_find a (pumps_replace a q d) = Some q.
Proof.
  induction d as [|[b v] d IH]; simpl; [discriminate |].
  destruct (axis_eqb a b) eqn:E; simpl; rewrite E; [reflexivity | exact IH].
Qed.

(** C9, where the code departs from the claim: [toggle_pump] flips the
    flag of its axis and never touches the lock, so its store into
    [pumps] is made with the lock not held. *)
Theorem C9_toggle_without_lock (w : world) (a : Axis) (p : pump) :
  pumps_find a (pumps w) = Some p ->
  let r := fst (toggle_pump a w) in
  let w' := snd (toggle_pump a w) in
  let state := if negb (enabled p) then "ON" else "OFF" in
  r = Done tt
  /\ enabled_of w' a = Some (negb (enabled p))
  /\ lock w' = lock w
  /\ added w [Store a Fenabled; Print ("[i] " ++ axis_name a ++ " pump turned " ++ state)] w'
  /\ unlocked_stores false
       [Store a Fenabled; Print ("[i] " ++ axis_name a ++ " pump turned " ++ state)]
     = [Store a Fenabled].
Proof.
  intros Hp r w' state. subst r w' state.
  unfold toggle_pump, enabled_of, added. unfold_m.
  destruct w as [s c k l ps g al dv tr]; simpl in *.
  repeat (first [rewrite Hp | rewrite (pumps_find_replace a p _ ps Hp)]; simpl).
  rewrite <- !app_assoc. repeat split.
Qed.

(** * The claims at concrete inputs *)

Lemma C1_witness :
  map fst (pumps (initial_world [])) = [AX; AY; AZ]
  /\ fields (scheduler_cmd (pumps (initial_world []))) =
     "G1" :: (flat_map (axis_fields (pumps (initial_world []))) [AX; AY; AZ]
              ++ ["F0.016666666666666666"])%list.
Proof.
  split; [reflexivity |].
  exact (proj1 (proj2 (C1_motion_fields true (initial_world []) eq_refl))).
Defined.

Lemma C2_witness :
  lock (initial_world []) = false
  /\ ~ In Connect [Tick; SetFlowRates; Toggle AX; Disconnect; Tick]
  /\ cancelled
       (run true ascii_float [Tick; SetFlowRates; Toggle AX; Disconnect; Tick]
          (snd (cancel_and_reset true (initial_world [])))) = true.
Proof.
  assert (H : ~ In Connect [Tick; SetFlowRates; Toggle AX; Disconnect; Tick]).
  { simpl. intros [H | [H | [H | [H | [H | []]]]]]; discriminate. }
  split; [reflexivity | split; [exact H |]].
  exact (proj1 (C2_cancelled_latch true ascii_float (initial_world []) _ eq_refl H)).
Defined.

Lemma C3_witness :
  well_formed (initial_world [])
  /\ fields (m92_text (selected_steps "none") (selected_steps "none") (selected_steps "none"))
     = ["M92"; "X" ++ int_str (- Z.abs (selected_steps "none"));
        "Y" ++ int_str (- Z.abs (selected_steps "none"));
        "Z" ++ int_str (selected_steps "none")].
Proof.
  assert (H : well_formed (initial_world [])) by (split; reflexivity).
  split; [exact H |].
  exact (proj1 (proj2 (C3_calibration_command true ascii_float (initial_world []) H))).
Defined.


Lemma C5_witness :
  lock (printer_world [Fail "write timeout"]) = false
  /\ fst (scheduler_tick false (printer_world [Fail "write timeout"]))
     = Raised (SerialException "write timeout")
  /\ forall n,
       scheduler false (S n) (printer_world [Fail "write timeout"])
       = (Raised (SerialException "write timeout"),
          snd (scheduler_tick false (printer_world [Fail "write timeout"]))).
Proof.
  assert (H : lock (printer_world [Fail "write timeout"]) = false) by reflexivity.
  pose proof (proj1 (C5_write_failure_ends_scheduler false ascii_float _ H)
                _ "write timeout" [] eq_refl eq_refl eq_refl eq_refl eq_refl) as T.
  split; [exact H | split; [exact (proj1 T) |]].
  exact (proj1 (proj2 (proj2 (proj2 T)))).
Defined.

Lemma C6_witness :
  forallb is_ok (firstn 6 (device (initial_world []))) = true
  /\ connected (snd (connect_serial false (initial_world []))) = true.
Proof.
  split; [reflexivity |].
  exact (proj1 (proj2 (proj1 (proj2 (C6_connect false (initial_world []))) eq_refl eq_refl))).
Defined.

Lemma C7_witness :
  well_formed typo_world
  /\ ascii_float (flow_entries (gui typo_world) AY) = None
  /\ flow_of (snd (apply_rates true ascii_float typo_world)) AY = Some 0%float.
Proof.
  assert (H : well_formed typo_world) by (split; reflexivity).
  assert (E : ascii_float (flow_entries (gui typo_world) AY) = None)
    by (vm_compute; reflexivity).
  split; [exact H | split; [exact E |]].
  exact (proj1 (C7_unparseable_flow true ascii_float typo_world AY H E)).
Defined.

Lemma C8_witness :
  well_formed (initial_world [])
  /\ has_exponent (scheduler_cmd slow_pumps) =
     existsb (fun item => enabled (snd item)
                          && has_exponent (float_repr (printer_flow (flow (snd item)))))
       slow_pumps.
Proof.
  assert (H : well_formed (initial_world [])) by (split; reflexivity).
  split; [exact H |].
  exact (proj1 (proj2 (C8_exponent_markers true ascii_float (initial_world []) slow_pumps H))).
Defined.

Lemma C9_witness :
  pumps_find AX (pumps (initial_world [])) = Some initial_pump
  /\ lock (snd (toggle_pump AX (initial_world []))) = lock (initial_world []).
Proof.
  split; [reflexivity |].
  exact (proj1 (proj2 (proj2 (C9_toggle_without_lock (initial_world []) AX initial_pump
                                  eq_refl)))).
Defined.

Lemma C10_witness :
  well_formed (initial_world [])
  /\ connected (initial_world []) = false
  /\ cancelled (snd (cancel_and_reset true (initial_world []))) = true.
Proof.
  assert (H : well_formed (initial_world [])) by (split; reflexivity).
  split; [exact H | split; [reflexivity |]].
  exact (proj1 (proj2 (C10_cancel_while_disconnected true (initial_world []) H eq_refl))).
Defined.

(** C5 fails as stated: with the port open and the first write failing,
    three turns of the loop are due and one is made; the port would have
    accepted the later writes. *)
Lemma C5_counterexample :
  fst (scheduler false 3 (printer_world [Fail "write timeout"]))
  = Raised (SerialException "write timeout")
  /\ ticks_done (trace (snd (scheduler false 3 (printer_world [Fail "write timeout"])))) = 1%nat
  /\ device (snd (scheduler false 3 (printer_world [Fail "write timeout"]))) = []
  /\ scheduler_alive
       (run false ascii_float [Tick; Tick; Tick] (printer_world [Fail "write timeout"]))
     = false
  /\ ticks_done
       (trace (run false ascii_float [Tick; Tick; Tick] (printer_world [Fail "write timeout"])))
     = 1%nat.
Proof. vm_compute. repeat split. Qed.

(** C6 fails as stated: a connect in mock mode succeeds and sends no
    command at all. *)
Lemma C6_counterexample :
  fst (connect_serial true (initial_world [])) = Done tt
  /\ connected (snd (connect_serial true (initial_world []))) = true
  /\ trace (snd (connect_serial true (initial_world [])))
     = [SetConnected true; Print "[✓] Mock connected to virtual printer"]
  /\ write_attempts (trace (snd (connect_serial true (initial_world [])))) = []
  /\ printed (trace (snd (connect_serial true (initial_world []))))
     = ["[✓] Mock connected to virtual printer"].
Proof. vm_compute. repeat split. Qed.

(** C7 fails as stated: with [abc] in the flow entry of Y, the port open
    and its next write failing, [apply_rates] stores 0.0 for Y and then
    raises the port's exception to its caller. *)
Lemma C7_counterexample :
  well_formed typo_printer_world
  /\ flow_entries (gui typo_printer_world) AY = "abc"
  /\ ascii_float (flow_entries (gui typo_printer_world) AY) = None
  /\ fst (apply_rates false ascii_float typo_printer_world)
     = Raised (SerialException "write timeout")
  /\ flow_of (snd (apply_rates false ascii_float typo_printer_world)) AY = Some 0%float.
Proof. vm_compute. repeat split. Qed.

(** C8 fails as stated: a flow of 1 uL/min puts an exponent into the
    motion line. *)
Lemma C8_counterexample :
  scheduler_cmd slow_pumps = "G1 X1.6666666666666667e-05 Y0.0 Z0.0 F0.016666666666666666"
  /\ has_exponent (scheduler_cmd slow_pumps) = true.
Proof. vm_compute. split; reflexivity. Qed.

(** * Further properties of the script *)

(** ** The scheduler only reads *)

Lemma tick_frame (MOCK_MODE : bool) (w : world) :
  let w' := snd (scheduler_tick MOCK_MODE w) in
  pumps w' = pumps w /\ connected w' = connected w /\ cancelled w' = cancelled w
  /\ ser w' = ser w /\ gui w' = gui w /\ lock w' = lock w
  /\ scheduler_alive w' = scheduler_alive w.
Proof.
  unfold scheduler_tick, send_gcode, serial. unfold_m.
  destruct w as [s c k l ps g al dv tr]; simpl.
  destruct l; simpl; [repeat split |].
  destruct c, k; simpl; try (repeat split; fail).
  destruct s as [h|]; simpl; [| repeat split].
  destruct MOCK_MODE; simpl; [repeat split |].
  destruct dv as [|[|msg] rest]; simpl; repeat split.
Qed.

(** X1: A tick changes nothing but the trace and the device script: the
    flags, the port, the pumps, the widgets and the thread are as before,
    whether it returns, raises or waits for the lock. *)
Theorem tick_reads_only (MOCK_MODE : bool) (w : world) :
  let w' := snd (scheduler_tick MOCK_MODE w) in
  pumps w' = pumps w /\ connected w' = connected w /\ cancelled w' = cancelled w
  /\ ser w' = ser w /\ gui w' = gui w /\ lock w' = lock w
  /\ scheduler_alive w' = scheduler_alive w.
Proof.
  unfold scheduler_tick, send_gcode, serial. unfold_m.
  destruct w as [s c k l ps g al dv tr]; simpl.
  destruct l; simpl; [repeat split |].
  destruct c, k; simpl; try (repeat split; fail).
  destruct s as [h|]; simpl; [| repeat split].
  destruct MOCK_MODE; simpl; [repeat split |].
  destruct dv as [|[|msg] rest]; simpl; repeat split.
Qed.

(** ** Toggling a pump *)

Lemma pumps_replace_same (a : Axis) (p : pump) (d : list (Axis * pump)) :
  pumps_find a d = Some p -> pumps_replace a p d = d.
Proof.
  induction d as [|[b v] d IH]; simpl; [reflexivity |].
  destruct (axis_eqb a b) eqn:E.
  - now intros [= ->].
  - intros H. now rewrite IH.
Qed.

Lemma pumps_replace_twice (a : Axis) (p q : pump) (d : list (Axis * pump)) :
  pumps_replace a p (pumps_replace a q d) = pumps_replace a p d.
Proof.
  induction d as [|[b v] d IH]; simpl; [reflexivity |].
  destruct (axis_eqb a b) eqn:E; simpl; rewrite E; [reflexivity | now rewrite IH].
Qed.

Lemma pumps_find_other (a b : Axis) (q : pump) (d : list (Axis * pump)) :
  a <> b -> pumps_find b (pumps_replace a q d) = pumps_find b d.
Proof.
  intros Hab. induction d as [|[c v] d IH]; simpl; [reflexivity |].
  destruct (axis_eqb a c) eqn:E; simpl.
  - destruct (axis_eqb b c) eqn:F; [| reflexivity].
    destruct a, b, c; simpl in *; try discriminate; now contradiction Hab.
  - now rewrite IH.
Qed.

Lemma toggle_pump_run (w : world) (a : Axis) (p : pump) :
  pumps_find a (pumps w) = Some p ->
  let state := if negb (enabled p) then "ON" else "OFF" in
  toggle_pump a w =
  (Done tt,
   log (Print ("[i] " ++ axis_name a ++ " pump turned " ++ state))
     (set_gui (set_toggle_button a (axis_name a ++ " " ++ state) (gui w))
        (log (Store a Fenabled)
           (set_pumps (pumps_replace a (set_enabled (negb (enabled p)) p) (pumps w)) w)))).
Proof.
  intros Hp state. subst state.
  unfold toggle_pump. unfold_m.
  rewrite Hp. cbn [pumps log set_pumps set_gui].
  rewrite Hp. cbn [pumps log set_pumps set_gui].
  rewrite (pumps_find_replace a p _ _ Hp). reflexivity.
Qed.

(** X2: Toggling the same pump twice gives back the pumps as they were, and
    the button shows the flag it started from. *)
Theorem toggle_twice_restores (w : world) (a : Axis) (p : pump) :
  pumps_find a (pumps w) = Some p ->
  let w1 := snd (toggle_pump a w) in
  let w2 := snd (toggle_pump a w1) in
  fst (toggle_pump a w1) = Done tt
  /\ pumps w2 = pumps w
  /\ enabled_of w1 a = Some (negb (enabled p))
  /\ toggle_buttons (gui w2) a
     = axis_name a ++ " " ++ (if enabled p then "ON" else "OFF").
Proof.
  intros Hp w1 w2. subst w2 w1.
  rewrite (toggle_pump_run w a p Hp). cbn [snd].
  set (q := set_enabled (negb (enabled p)) p).
  assert (Hq : pumps_find a
                 (pumps (log (Print ("[i] " ++ axis_name a ++ " pump turned "
                                       ++ (if negb (enabled p) then "ON" else "OFF")))
                           (set_gui (set_toggle_button a
                                       (axis_name a ++ " "
                                          ++ (if negb (enabled p) then "ON" else "OFF"))
                                       (gui w))
                              (log (Store a Fenabled)
                                 (set_pumps (pumps_replace a q (pumps w)) w)))))
               = Some q).
  { cbn [pumps log set_pumps set_gui]. now apply pumps_find_replace with (p := p). }
  rewrite (toggle_pump_run _ a q Hq). cbn [fst snd pumps log set_pumps set_gui gui].
  unfold enabled_of. cbn [pumps log set_pumps set_gui].
  rewrite pumps_replace_twice.
  rewrite (pumps_find_replace a p q _ Hp).
  assert (E : set_enabled (negb (enabled q)) q = p).
  { subst q. destruct p as [f ps sy en]. simpl. now rewrite negb_involutive. }
  rewrite E, (pumps_replace_same a p _ Hp).
  repeat split.
  subst q. cbn [set_toggle_button toggle_buttons update enabled set_enabled].
  rewrite negb_involutive. now destruct a.
Qed.

(** X3: Toggling axis [a] changes no flow and no syringe, leaves the flag of
    every other axis alone, and decides whether the next motion line has
    a rate field for [a]: none when [a] was enabled, its rate when it was
    not. *)
Theorem toggle_changes_one_field (w : world) (a : Axis) (p : pump) :
  pumps_find a (pumps w) = Some p ->
  let w' := snd (toggle_pump a w) in
  (forall b, flow_of w' b = flow_of w b /\ syringe_of w' b = syringe_of w b)
  /\ (forall b, a <> b -> axis_fields (pumps w') b = axis_fields (pumps w) b)
  /\ axis_fields (pumps w') a = (if enabled p then [] else [rate_field (a, p)])
  /\ axis_fields (pumps w) a = (if enabled p then [rate_field (a, p)] else []).
Proof.
  intros Hp w'. subst w'.
  rewrite (toggle_pump_run w a p Hp).
  cbn [snd]. unfold flow_of, syringe_of, axis_fields. cbn [pumps log set_pumps set_gui].
  split; [| split; [| split]].
  - intros b. destruct (axis_eqb a b) eqn:E.
    + assert (a = b) as <- by (destruct a, b; simpl in E; congruence).
      rewrite (pumps_find_replace a p _ _ Hp), Hp. split; reflexivity.
    + assert (a <> b) as Hab by (intros ->; destruct b; discriminate).
      rewrite (pumps_find_other a b _ _ Hab). split; reflexivity.
  - intros b Hab. now rewrite (pumps_find_other a b _ _ Hab).
  - rewrite (pumps_find_replace a p _ _ Hp). cbn [enabled set_enabled].
    destruct (enabled p); reflexivity.
  - rewrite Hp. reflexivity.
Qed.

Ltac finish :=
  repeat match goal with |- _ /\ _ => split end;
  intros; subst; simpl; try discriminate; rewrite <- ?app_assoc;
  try reflexivity; repeat split.

(** ** Disconnecting *)

(** X4: After a disconnect that returned, [connected] is clear, the real port
    is closed and forgotten, every [send_gcode] does nothing at all, and a
    tick only sleeps and takes the lock; pumps and latch are untouched. *)
Theorem disconnect_silences (MOCK_MODE : bool) (w : world) :
  fst (disconnect_serial MOCK_MODE w) = Done tt ->
  let w' := snd (disconnect_serial MOCK_MODE w) in
  connected w' = false
  /\ (MOCK_MODE = false -> ser w' = None)
  /\ (MOCK_MODE = true -> ser w' = ser w /\ device w' = device w)
  /\ pumps w' = pumps w /\ cancelled w' = cancelled w
  /\ status_label (gui w') = "Disconnected"
  /\ (forall cmd, send_gcode MOCK_MODE cmd w' = (Done tt, w'))
  /\ (lock w = false ->
      fst (scheduler_tick MOCK_MODE w') = Done tt
      /\ added w' [Sleep stepsize; Acquire; Release] (snd (scheduler_tick MOCK_MODE w'))
      /\ device (snd (scheduler_tick MOCK_MODE w')) = device w').
Proof.
  unfold disconnect_serial, scheduler_tick, send_gcode, serial, added. unfold_m.
  destruct w as [s c k l ps g al dv tr]; simpl.
  destruct s as [h|]; [destruct MOCK_MODE; [| destruct dv as [|[|msg] rest]] |];
    simpl; intros H; try discriminate; finish.
Qed.

(** X5: When closing the port fails, the exception leaves [disconnect_serial]
    before anything is reset: the script still holds the port object, is
    still [connected], and the status label is not updated. *)
Theorem disconnect_close_failure (w : world) (h : serial_handle) (msg : string)
    (rest : list reply) :
  ser w = Some h ->
  device w = Fail msg :: rest ->
  let w' := snd (disconnect_serial false w) in
  fst (disconnect_serial false w) = Raised (SerialException msg)
  /\ ser w' = Some h /\ connected w' = connected w /\ gui w' = gui w
  /\ added w [Serial Close (Fail msg)] w'.
Proof.
  unfold disconnect_serial, serial, added. unfold_m.
  destruct w as [s c k l ps g al dv tr]; simpl.
  intros -> ->. simpl. repeat split.
Qed.

(** ** The syringe table *)

(** X6: Whatever the menu holds, the id stored for it is a key of [syringes],
    and reading the id back through [syringe_id_to_name] gives the choice
    itself when it is a name of the table and [none] otherwise. *)
Theorem syringe_choice_round_trip (choice : string) :
  (exists s, dict_find (selected_id choice) syringes = Some s
             /\ dict_find (selected_id choice) syringe_id_to_name = Some (name s))
  /\ dict_find (selected_id choice) syringe_id_to_name
     = Some (if existsb (String.eqb choice) (map (fun kv => name (snd kv)) syringes)
             then choice else "none").
Proof.
  cbv [selected_id dict_get_default syringe_name_to_id syringe_id_to_name
         dict_find syringes map fst snd name existsb].
  destruct (String.eqb choice "none") eqn:E0;
    [apply String.eqb_eq in E0; subst; split;
       [eexists; split; reflexivity | reflexivity] |].
  destruct (String.eqb choice "10 mL HenkeJect") eqn:E1;
    [apply String.eqb_eq in E1; subst; split;
       [eexists; split; reflexivity | reflexivity] |].
  destruct (String.eqb choice "5 mL HenkeJect") eqn:E2;
    [apply String.eqb_eq in E2; subst; split;
       [eexists; split; reflexivity | reflexivity] |].
  destruct (String.eqb choice "2 mL HenkeJect") eqn:E3;
    [apply String.eqb_eq in E3; subst; split;
       [eexists; split; reflexivity | reflexivity] |].
  split; [eexists; split; reflexivity | reflexivity].
Qed.

(** ** The loop in mock mode *)

Lemma ticks_done_app (tr evs : list event) :
  ticks_done (tr ++ evs) = (ticks_done tr + ticks_done evs)%nat.
Proof. unfold ticks_done. now rewrite filter_app, length_app. Qed.

Lemma mock_tick (w : world) :
  lock w = false ->
  let w' := snd (scheduler_tick true w) in
  fst (scheduler_tick true w) = Done tt
  /\ lock w' = false /\ device w' = device w
  /\ ticks_done (trace w') = S (ticks_done (trace w)).
Proof.
  unfold scheduler_tick, send_gcode. unfold_m.
  destruct w as [s c k l ps g al dv tr]; simpl. intros ->. simpl.
  destruct c, k; simpl; try destruct s; simpl;
    rewrite <- ?app_assoc, ticks_done_app; simpl;
    (repeat split; rewrite Nat.add_1_r; reflexivity).
Qed.

(** X7: With [MOCK_MODE] set, as shipped, no turn of the loop can raise: any
    number of turns is made in full, and the device script is never
    consumed. *)
Theorem mock_scheduler_never_stops (n : nat) (w : world) :
  lock w = false ->
  let w' := snd (scheduler true n w) in
  fst (scheduler true n w) = Done tt
  /\ ticks_done (trace w') = (ticks_done (trace w) + n)%nat
  /\ device w' = device w /\ lock w' = false.
Proof.
  revert w. induction n as [|n IH]; intros w Hl; simpl.
  - repeat split; [now rewrite Nat.add_0_r | exact Hl].
  - destruct (mock_tick w Hl) as (H1 & H2 & H3 & H4).
    destruct (scheduler_tick true w) as [[[] | e |] w1] eqn:E; simpl in *;
      try discriminate.
    rewrite !(bind_done _ _ _ _ _ E).
    destruct (IH w1 H2) as (I1 & I2 & I3 & I4).
    split; [exact I1 | split; [| split]].
    + rewrite I2, H4. lia.
    + now rewrite I3.
    + exact I4.
Qed.

(** ** Mock mode and the port *)

Lemma serial_calls_app (tr evs : list event) :
  serial_calls (tr ++ evs) = (serial_calls tr ++ serial_calls evs)%list.
Proof. unfold serial_calls. apply filter_app. Qed.

Lemma quiet_emit (held : bool) (d : list reply) (l : list event) (e : event) :
  is_serial e = false -> stable (Quiet held d l) (emit e).
Proof.
  intros He. apply stable_modify. intros w (H1 & H2 & H3).
  repeat split; try assumption.
  cbn [trace log]. rewrite serial_calls_app. cbn [serial_calls filter].
  rewrite He. now rewrite app_nil_r.
Qed.

Lemma quiet_pump_store (held : bool) (d : list reply) (l : list event)
    (a : Axis) (f : field) (upd : pump -> pump) :
  stable (Quiet held d l) (pump_store a f upd).
Proof.
  unfold pump_store.
  apply stable_bind; [apply stable_pump_load | intros p].
  apply stable_bind; [| intros _; now apply quiet_emit].
  apply stable_modify. now intros w H.
Qed.

Lemma quiet_send_gcode (held : bool) (d : list reply) (l : list event) (cmd : string) :
  stable (Quiet held d l) (send_gcode true cmd).
Proof.
  unfold send_gcode.
  apply stable_bind; [apply stable_read | intros [|]; [| apply stable_ret]].
  apply stable_bind; [apply stable_read | intros s].
  apply stable_bind; [| intros _; now apply quiet_emit].
  destruct s; apply stable_ret.
Qed.

Ltac qstab :=
  repeat first
    [ apply stable_ret | apply stable_raise | apply stable_read
    | apply quiet_emit; reflexivity
    | apply quiet_pump_store | apply quiet_send_gcode
    | apply stable_pump_load | apply stable_syringe_load
    | apply stable_m92_loop | apply stable_float_of_str
    | apply stable_for_each; intros ?
    | apply stable_bind; [| intros ?]
    | apply stable_try_except; [| intros ?]
    | apply stable_modify; intros ? ?; assumption
    | match goal with
      | |- stable _ (match ?x with _ => _ end) => destruct x
      | |- stable _ (if ?x then _ else _) => destruct x
      end ].

Lemma quiet_with_lock {A : Type} (body : M A) (d : list reply) (l : list event) :
  stable (Quiet true d l) body -> stable (Quiet false d l) (with_lock body).
Proof.
  intros Hb w (Hl & Hd & Hs). unfold with_lock. rewrite Hl.
  assert (H0 : Quiet true d l (log Acquire (set_lock true w))).
  { repeat split; try assumption.
    cbn [trace log set_lock]. rewrite serial_calls_app. cbn. now rewrite app_nil_r. }
  destruct (Hb _ H0) as [(_ & Hd1 & Hs1) Hn].
  destruct (body (log Acquire (set_lock true w))) as [[a | e |] w1]; cbn [fst snd] in *;
    try (now contradiction Hn);
    (split; [| discriminate]); (repeat split; try assumption);
    cbn [trace log set_lock]; rewrite serial_calls_app, Hs1; cbn; now rewrite app_nil_r.
Qed.

Lemma quiet_command (d : list reply) (l : list event) (m : M unit) (w : world) :
  stable (Quiet false d l) m -> Quiet false d l w -> Quiet false d l (command m w).
Proof.
  intros Hm Hw. unfold command.
  destruct (Hm w Hw) as [(H1 & H2 & H3) _].
  destruct (m w) as [[[] | e |] w1]; cbn [fst snd] in *; repeat split; try assumption.
  cbn [trace log]. rewrite serial_calls_app, H3. cbn. now rewrite app_nil_r.
Qed.

Lemma quiet_step (py_float : string -> option float) (d : list reply) (l : list event)
    (a : action) (w : world) :
  Quiet false d l w -> Quiet false d l (step true py_float a w).
Proof.
  intros Hw. destruct a; cbn [step].
  - destruct (scheduler_alive w); [| exact Hw].
    assert (Hs : stable (Quiet false d l) (scheduler_tick true)).
    { unfold scheduler_tick. apply stable_bind; [qstab | intros _].
      apply quiet_with_lock. qstab. }
    destruct (Hs w Hw) as [(H1 & H2 & H3) _].
    destruct (scheduler_tick true w) as [[[] | e |] w1]; cbn [fst snd] in *;
      repeat split; try assumption.
    cbn [trace log set_scheduler_alive]. rewrite serial_calls_app, H3. cbn.
    now rewrite app_nil_r.
  - apply quiet_command; [| exact Hw]. unfold connect_serial, assign_connected. qstab.
  - apply quiet_command; [| exact Hw]. unfold disconnect_serial, assign_connected. qstab.
  - apply quiet_command; [| exact Hw]. unfold apply_rates.
    apply quiet_with_lock. qstab.
  - apply quiet_command; [| exact Hw]. unfold cancel_and_reset.
    apply quiet_with_lock. qstab.
  - apply quiet_command; [| exact Hw]. unfold toggle_pump. qstab.
  - exact Hw.
  - exact Hw.
Qed.

(** X8: In mock mode nothing ever reaches the serial port: whatever the user
    and the scheduler do, no call on the port is made and the device
    script is not consumed. *)
Theorem mock_mode_never_touches_port (py_float : string -> option float)
    (acts : list action) (w : world) :
  lock w = false ->
  let w' := run true py_float acts w in
  device w' = device w /\ serial_calls (trace w') = serial_calls (trace w)
  /\ lock w' = false.
Proof.
  intros Hl w'. subst w'.
  assert (H : Quiet false (device w) (serial_calls (trace w)) (run true py_float acts w)).
  { unfold run.
    assert (H0 : Quiet false (device w) (serial_calls (trace w)) w) by now repeat split.
    revert H0. generalize (device w) (serial_calls (trace w)). revert w Hl.
    induction acts as [|a acts IH]; intros w Hl d l H0; cbn [fold_left]; [exact H0 |].
    pose proof (quiet_step py_float d l a w H0) as H1.
    apply IH; [apply H1 | exact H1]. }
  destruct H as (H1 & H2 & H3). now repeat split.
Qed.

(** ** Writes that fail under the lock *)

Lemma bind_raised {A B : Type} (m : M A) (k : A -> M B) (w : world) (e : exn) (w1 : world) :
  m w = (Raised e, w1) -> bind m k w = (Raised e, w1).
Proof. intros E. unfold bind. now rewrite E. Qed.

Lemma send_gcode_fails (cmd : string) (w : world) (h : serial_handle) (msg : string)
    (rest : list reply) :
  connected w = true -> ser w = Some h -> device w = Fail msg :: rest ->
  send_gcode false cmd w =
  (Raised (SerialException msg), log (Serial (Write (cmd ++ LF)) (Fail msg)) (set_device rest w)).
Proof.
  intros Hc Hs Hd. unfold send_gcode, serial. unfold_m.
  rewrite Hc, Hs. cbn [negb]. now rewrite Hd.
Qed.

(** X9: When the write of the M92 line fails, [apply_rates] raises with the
    lock released and the new flows and syringe ids already stored; the
    three standing commands are never attempted. *)
Theorem apply_rates_write_failure (py_float : string -> option float) (w : world)
    (h : serial_handle) (msg : string) (rest : list reply) :
  well_formed w ->
  connected w = true -> ser w = Some h -> device w = Fail msg :: rest ->
  let k a := selected_steps (syringe_vars (gui w) a) in
  let w' := snd (apply_rates false py_float w) in
  fst (apply_rates false py_float w) = Raised (SerialException msg)
  /\ lock w' = false /\ device w' = rest
  /\ (forall b, flow_of w' b = Some (parsed_flow py_float (flow_entries (gui w) b))
                /\ syringe_of w' b = Some (selected_id (syringe_vars (gui w) b)))
  /\ added w
       [Acquire; Store AX Fflow; Store AX Fsyringe; Store AY Fflow; Store AY Fsyringe;
        Store AZ Fflow; Store AZ Fsyringe;
        Serial (Write (m92_text (k AX) (k AY) (k AZ) ++ LF)) (Fail msg); Release] w'.
Proof.
  intros Hw Hc Hs Hd k w'. subst w' k.
  rewrite (apply_rates_calibration false py_float w Hw).
  destruct Hw as [Hl Hk].
  destruct (keys_three _ Hk) as (px & py & pz & Hp).
  destruct (store_rates_run py_float (log Acquire (set_lock true w)) px py pz Hp)
    as (w1 & E & Hp1 & Ht1 & Hs1 & Hc1 & _ & _ & Hd1 & _).
  unfold with_lock. rewrite Hl. rewrite (bind_done _ _ _ _ _ E).
  cbn [ser connected device log set_lock] in Hs1, Hc1, Hd1.
  rewrite (bind_raised _ _ _ _ _
             (send_gcode_fails _ w1 h msg rest (eq_trans Hc1 Hc) (eq_trans Hs1 Hs)
                (eq_trans Hd1 Hd))).
  cbn [fst snd lock device log set_lock set_device].
  unfold flow_of, syringe_of, added in *. cbn [pumps trace log set_lock set_device] in *.
  rewrite Hp1, Ht1. cbn [gui log set_lock].
  split; [reflexivity | split; [reflexivity | split; [reflexivity | split]]].
  - intros b. destruct b; split; reflexivity.
  - rewrite <- !app_assoc. reflexivity.
Qed.

(** X10: When the write of the emergency stop fails, [cancel_and_reset] raises
    with the latch set, every flow zero and the lock released, but the
    firmware reset is never attempted and the status label keeps its
    text. *)
Theorem cancel_stop_write_failure (w : world) (h : serial_handle) (msg : string)
    (rest : list reply) :
  well_formed w ->
  connected w = true -> ser w = Some h -> device w = Fail msg :: rest ->
  let w' := snd (cancel_and_reset false w) in
  fst (cancel_and_reset false w) = Raised (SerialException msg)
  /\ cancelled w' = true /\ lock w' = false /\ device w' = rest
  /\ (forall a, flow_of w' a = Some 0%float)
  /\ status_label (gui w') = status_label (gui w)
  /\ added w
       [Acquire; Store AX Fflow; Store AY Fflow; Store AZ Fflow;
        Serial (Write ("M112" ++ LF)) (Fail msg); Release] w'.
Proof.
  intros [Hl Hk] Hc Hs Hd.
  destruct (keys_three _ Hk) as (px & py & pz & Hp).
  unfold cancel_and_reset, send_gcode, serial, flow_of, added. unfold_m.
  destruct w as [s c k l ps g al dv tr]; simpl in *; subst. simpl.
  rewrite <- !app_assoc. simpl.
  repeat split. intros []; reflexivity.
Qed.

(** X11: When connected and the port does not fail, [cancel_and_reset] sends
    the emergency stop and then the firmware reset, in that order, echoes
    both, and shows the cancelled status. *)
Theorem cancel_sends_stop_then_reset (MOCK_MODE : bool) (w : world) :
  well_formed w ->
  connected w = true ->
  transport_quiet MOCK_MODE 2 w ->
  let w' := snd (cancel_and_reset MOCK_MODE w) in
  fst (cancel_and_reset MOCK_MODE w) = Done tt
  /\ cancelled w' = true
  /\ (forall a, flow_of w' a = Some 0%float /\ current_labels (gui w') a = "0.00")
  /\ status_label (gui w') = "✗ Cancelled & Reset"
  /\ exists evs,
       added w evs w'
       /\ printed evs = [">> M112"; ">> M999"; "[!] Cancelled all commands and sent reset."]
       /\ write_attempts evs =
          (if negb MOCK_MODE then
             match ser w with
             | Some _ => ["M112" ++ LF; "M999" ++ LF]
             | None => []
             end
           else []).
Proof.
  intros [Hl Hk] Hc Hq.
  destruct (keys_three _ Hk) as (px & py & pz & Hp).
  destruct w as [s c k l ps g al dv tr]; cbn [lock pumps connected] in *; subst.
  assert (Hcases : MOCK_MODE = true \/ s = None
                   \/ exists h dv', MOCK_MODE = false /\ s = Some h
                                    /\ (dv = [] \/ dv = [Ok] \/ dv = Ok :: Ok :: dv')).
  { destruct MOCK_MODE; [left; reflexivity |].
    destruct s as [h|]; [| right; left; reflexivity].
    right; right. exists h.
    destruct Hq as [Hq | [Hq | [Hq | Hq]]]; try discriminate.
    cbn [device] in Hq.
    destruct dv as [|[|m1] [|[|m2] dv']]; cbn in Hq; try discriminate;
      [exists [] | exists [] | exists dv']; auto. }
  unfold cancel_and_reset, send_gcode, serial, flow_of, added. unfold_m.
  destruct Hcases as [-> | [-> | (h & dv' & -> & -> & [-> | [-> | ->]])]];
    try destruct MOCK_MODE; try destruct s; simpl; rewrite <- !app_assoc;
    (split; [reflexivity | split; [reflexivity | split; [intros []; split; reflexivity |
       split; [reflexivity |]]]]);
    eexists; (split; [reflexivity | split; reflexivity]).
Qed.

(** ** Cancel, reconnect, resume *)

Lemma motion_fields_of (items : list (Axis * pump)) :
  map fst items = [AX; AY; AZ] ->
  fields (scheduler_cmd items) =
  "G1" :: (flat_map (axis_fields items) [AX; AY; AZ] ++ ["F0.016666666666666666"])%list.
Proof.
  intros Hk. rewrite scheduler_cmd_tail, period_field.
  rewrite fields_tail by reflexivity. f_equal. f_equal.
  destruct (keys_three _ Hk) as (px & py & pz & ->).
  unfold axis_fields; simpl.
  destruct (enabled px), (enabled py), (enabled pz); reflexivity.
Qed.

Lemma zero_rate : float_repr (printer_flow 0%float) = "0.0".
Proof. vm_compute. reflexivity. Qed.

(** X12: In mock mode, after Cancel & Reset and a new Connect the next tick
    sends a motion line again, and that line carries the rate [0.0] for
    each enabled axis: the flows stay zero until rates are applied anew. *)
Theorem reconnect_resumes_with_zero_rates (w : world) :
  well_formed w ->
  let w1 := snd (cancel_and_reset true w) in
  let w2 := snd (connect_serial true w1) in
  let w3 := snd (scheduler_tick true w2) in
  fst (scheduler_tick true w2) = Done tt
  /\ added w2 [Sleep stepsize; Acquire; Print (">> " ++ scheduler_cmd (pumps w2)); Release] w3
  /\ fields (scheduler_cmd (pumps w2)) =
     "G1" :: (flat_map (fun a => match enabled_of w a with
                                 | Some true => [(axis_name a ++ "0.0")%string]
                                 | _ => []
                                 end) [AX; AY; AZ]
              ++ ["F0.016666666666666666"])%list.
Proof.
  intros [Hl Hk].
  destruct (keys_three _ Hk) as (px & py & pz & Hp).
  destruct w as [s c k l ps g al dv tr]; cbn [lock pumps] in *; subst.
  assert (Hps : pumps (snd (connect_serial true
                              (snd (cancel_and_reset true
                                      {| ser := s; connected := c; cancelled := k;
                                         lock := false;
                                         pumps := [(AX, px); (AY, py); (AZ, pz)];
                                         gui := g; scheduler_alive := al; device := dv;
                                         trace := tr |}))))
                = [(AX, set_flow 0%float px); (AY, set_flow 0%float py);
                   (AZ, set_flow 0%float pz)]).
  { unfold connect_serial, cancel_and_reset, send_gcode. unfold_m.
    destruct c, s; reflexivity. }
  cbv zeta. rewrite Hps.
  split; [| split].
  - unfold scheduler_tick, connect_serial, cancel_and_reset, send_gcode. unfold_m.
    destruct c, s; reflexivity.
  - unfold added, scheduler_tick, connect_serial, cancel_and_reset, send_gcode. unfold_m.
    destruct c, s; simpl; rewrite <- !app_assoc; reflexivity.
  - rewrite motion_fields_of by reflexivity.
    unfold axis_fields, enabled_of, rate_field.
    cbn [flat_map pumps_find axis_eqb pumps option_map enabled set_flow flow fst snd app].
    rewrite zero_rate.
    destruct (enabled px), (enabled py), (enabled pz); reflexivity.
Qed.

(** ** The window follows the state *)

Lemma store_rates_gui (py_float : string -> option float) (w w1 : world)
    (px py pz : pump) :
  pumps w = [(AX, px); (AY, py); (AZ, pz)] ->
  store_rates py_float w = (Done tt, w1) ->
  (forall a, current_labels (gui w1) a
             = format_2f (parsed_flow py_float (flow_entries (gui w) a)))
  /\ toggle_buttons (gui w1) = toggle_buttons (gui w).
Proof.
  intros Hp.
  unfold store_rates, try_except, float_of_str, parsed_flow. unfold_m.
  destruct w as [s c k l ps g al dv tr]; simpl in *; subst ps.
  destruct (py_float (flow_entries g AX)) eqn:EX; simpl;
    destruct (py_float (flow_entries g AY)) eqn:EY; simpl;
    destruct (py_float (flow_entries g AZ)) eqn:EZ; simpl;
    intros [= <-];
    (split; [intros []; cbn [gui]; rewrite ?EX, ?EY, ?EZ; reflexivity | reflexivity]).
Qed.

Lemma calibrate_gui (MOCK_MODE : bool) (cmd : string) (w : world) :
  gui (snd ((send_gcode MOCK_MODE cmd ;; standing_commands MOCK_MODE) w)) = gui w.
Proof.
  unfold standing_commands, send_gcode, serial. unfold_m.
  destruct w as [s c k l ps g al dv tr].
  destruct c; [| reflexivity].
  destruct s as [h|]; [| reflexivity].
  destruct MOCK_MODE; [reflexivity |].
  destruct dv as [|[|m1] [|[|m2] [|[|m3] [|[|m4] dv]]]]; reflexivity.
Qed.

Lemma connect_frame (MOCK_MODE : bool) (w : world) :
  let w' := snd (connect_serial MOCK_MODE w) in
  pumps w' = pumps w /\ current_labels (gui w') = current_labels (gui w)
  /\ toggle_buttons (gui w') = toggle_buttons (gui w).
Proof.
  unfold connect_serial, try_except, send_gcode, serial. unfold_m.
  destruct w as [s c k l ps g al dv tr].
  destruct MOCK_MODE; [repeat split |].
  destruct dv as [|[|m1] [|[|m2] [|[|m3] [|[|m4] [|[|m5] [|[|m6] dv]]]]]];
    repeat split.
Qed.

Lemma disconnect_frame (MOCK_MODE : bool) (w : world) :
  let w' := snd (disconnect_serial MOCK_MODE w) in
  pumps w' = pumps w /\ current_labels (gui w') = current_labels (gui w)
  /\ toggle_buttons (gui w') = toggle_buttons (gui w).
Proof.
  unfold disconnect_serial, serial. unfold_m.
  destruct w as [s c k l ps g al dv tr].
  destruct s as [h|]; [| repeat split].
  destruct MOCK_MODE; [repeat split |].
  destruct dv as [|[|m1] dv]; repeat split.
Qed.

Lemma zero_label : format_2f 0%float = "0.00".
Proof. vm_compute. reflexivity. Qed.

Lemma cancel_frame (MOCK_MODE : bool) (w : world) (px py pz : pump) :
  lock w = false ->
  pumps w = [(AX, px); (AY, py); (AZ, pz)] ->
  let w' := snd (cancel_and_reset MOCK_MODE w) in
  pumps w' = [(AX, set_flow 0%float px); (AY, set_flow 0%float py);
              (AZ, set_flow 0%float pz)]
  /\ (forall a, current_labels (gui w') a = "0.00")
  /\ toggle_buttons (gui w') = toggle_buttons (gui w).
Proof.
  unfold cancel_and_reset, send_gcode, serial. unfold_m.
  destruct w as [s c k l ps g al dv tr]. cbn [lock pumps]. intros -> ->.
  destruct c; [| split; [reflexivity | split; [intros []; reflexivity | reflexivity]]].
  destruct s as [h|];
    [| split; [reflexivity | split; [intros []; reflexivity | reflexivity]]].
  destruct MOCK_MODE;
    [split; [reflexivity | split; [intros []; reflexivity | reflexivity]] |].
  destruct dv as [|[|m1] [|[|m2] dv]];
    (split; [reflexivity | split; [intros []; reflexivity | reflexivity]]).
Qed.

Lemma apply_frame (MOCK_MODE : bool) (py_float : string -> option float) (w : world)
    (px py pz : pump) :
  lock w = false ->
  pumps w = [(AX, px); (AY, py); (AZ, pz)] ->
  let fl a := parsed_flow py_float (flow_entries (gui w) a) in
  let id a := selected_id (syringe_vars (gui w) a) in
  let w' := snd (apply_rates MOCK_MODE py_float w) in
  pumps w' = [ (AX, set_syringe (id AX) (set_flow (fl AX) px));
               (AY, set_syringe (id AY) (set_flow (fl AY) py));
               (AZ, set_syringe (id AZ) (set_flow (fl AZ) pz)) ]
  /\ (forall a, current_labels (gui w') a = format_2f (fl a))
  /\ toggle_buttons (gui w') = toggle_buttons (gui w).
Proof.
  intros Hl Hp fl id w'. subst w'.
  assert (Hw : well_formed w) by (split; [exact Hl | now rewrite Hp]).
  rewrite (apply_rates_calibration MOCK_MODE py_float w Hw).
  destruct (store_rates_run py_float (log Acquire (set_lock true w)) px py pz Hp)
    as (w1 & E & Hp1 & _).
  destruct (store_rates_gui py_float (log Acquire (set_lock true w)) w1 px py pz Hp E)
    as (Hlab & Hbut).
  unfold with_lock. rewrite Hl. rewrite (bind_done _ _ _ _ _ E).
  pose proof (calibrate_run MOCK_MODE
                (m92_text (selected_steps (syringe_vars (gui w) AX))
                   (selected_steps (syringe_vars (gui w) AY))
                   (selected_steps (syringe_vars (gui w) AZ))) w1) as Hrun.
  pose proof (calibrate_gui MOCK_MODE
                (m92_text (selected_steps (syringe_vars (gui w) AX))
                   (selected_steps (syringe_vars (gui w) AY))
                   (selected_steps (syringe_vars (gui w) AZ))) w1) as Hgui.
  cbv beta zeta in Hrun, Hgui |- *.
  destruct ((send_gcode MOCK_MODE
               (m92_text (selected_steps (syringe_vars (gui w) AX))
                  (selected_steps (syringe_vars (gui w) AY))
                  (selected_steps (syringe_vars (gui w) AZ))) ;;
             standing_commands MOCK_MODE) w1) as [ro w2].
  cbn [fst snd] in Hrun, Hgui. destruct Hrun as (Hpw & Hnb & _).
  assert (Hres : match ro with
                 | Blocked => (Blocked, w2)
                 | _ => (ro, log Release (set_lock false w2))
                 end = (ro, log Release (set_lock false w2))).
  { destruct ro as [[] | e |]; try reflexivity. now contradiction Hnb. }
  rewrite Hres. cbn [snd pumps gui log set_lock].
  rewrite Hpw, Hp1, Hgui. cbn [gui log set_lock] in *.
  split; [reflexivity | split; [exact Hlab | exact Hbut]].
Qed.

Lemma in_sync_three (w : world) (px py pz : pump) :
  pumps w = [(AX, px); (AY, py); (AZ, pz)] ->
  in_sync w <->
  (forall a, current_labels (gui w) a
             = format_2f (flow (match a with AX => px | AY => py | AZ => pz end))
             /\ toggle_buttons (gui w) a
                = axis_name a ++ " "
                  ++ (if enabled (match a with AX => px | AY => py | AZ => pz end)
                      then "ON" else "OFF")).
Proof.
  intros Hp. unfold in_sync. rewrite Hp. split.
  - intros H a. apply H. destruct a; reflexivity.
  - intros H a p Hf. specialize (H a).
    destruct a; simpl in Hf; injection Hf as <-; exact H.
Qed.

Lemma step_in_sync (MOCK_MODE : bool) (py_float : string -> option float)
    (a : action) (w : world) :
  well_formed w -> in_sync w -> in_sync (step MOCK_MODE py_float a w).
Proof.
  intros [Hl Hk] Hs.
  destruct (keys_three _ Hk) as (px & py & pz & Hp).
  rewrite (in_sync_three w px py pz Hp) in Hs.
  destruct a; cbn [step].
  - assert (H : pumps (if scheduler_alive w
                       then match scheduler_tick MOCK_MODE w with
                            | (Raised e, w1) => set_scheduler_alive false (log (Traceback e) w1)
                            | (_, w1) => w1
                            end
                       else w) = pumps w
                /\ gui (if scheduler_alive w
                        then match scheduler_tick MOCK_MODE w with
                             | (Raised e, w1) =>
                                 set_scheduler_alive false (log (Traceback e) w1)
                             | (_, w1) => w1
                             end
                        else w) = gui w).
    { destruct (scheduler_alive w); [| now split].
      pose proof (tick_frame MOCK_MODE w) as (H1 & _ & _ & _ & H5 & _).
      destruct (scheduler_tick MOCK_MODE w) as [[[] | e |] w1]; now split. }
    destruct H as [H1 H2].
    apply (in_sync_three _ px py pz); [now rewrite H1 | now rewrite H2].
  - pose proof (connect_frame MOCK_MODE w) as (H1 & H2 & H3).
    unfold command.
    destruct (connect_serial MOCK_MODE w) as [[[] | e |] w1]; cbn [snd] in *;
      apply (in_sync_three _ px py pz); cbn [pumps gui log];
      rewrite ?H1, ?H2, ?H3; assumption.
  - pose proof (disconnect_frame MOCK_MODE w) as (H1 & H2 & H3).
    unfold command.
    destruct (disconnect_serial MOCK_MODE w) as [[[] | e |] w1]; cbn [snd] in *;
      apply (in_sync_three _ px py pz); cbn [pumps gui log];
      rewrite ?H1, ?H2, ?H3; assumption.
  - pose proof (apply_frame MOCK_MODE py_float w px py pz Hl Hp) as (H1 & H2 & H3).
    unfold command.
    destruct (apply_rates MOCK_MODE py_float w) as [[[] | e |] w1]; cbn [snd] in *;
      apply (proj2 (in_sync_three _ _ _ _ H1)); cbn [gui log];
      intros b; rewrite H2, H3; destruct (Hs b) as [_ Hb];
      destruct b; (split; [reflexivity | exact Hb]).
  - pose proof (cancel_frame MOCK_MODE w px py pz Hl Hp) as (H1 & H2 & H3).
    unfold command.
    destruct (cancel_and_reset MOCK_MODE w) as [[[] | e |] w1]; cbn [snd] in *;
      apply (proj2 (in_sync_three _ _ _ _ H1)); cbn [gui log];
      intros b; rewrite H2, H3; destruct (Hs b) as [_ Hb];
      destruct b; cbn [flow set_flow]; rewrite zero_label;
      (split; [reflexivity | exact Hb]).
  - assert (Hf : pumps_find a (pumps w)
                 = Some (match a with AX => px | AY => py | AZ => pz end)).
    { rewrite Hp. destruct a; reflexivity. }
    unfold command. rewrite (toggle_pump_run w a _ Hf).
    intros b q. cbn [pumps gui log set_gui set_pumps current_labels toggle_buttons
                       set_toggle_button].
    rewrite Hp. destruct (Hs b) as [Hb1 Hb2].
    destruct a, b; cbn [pumps_replace pumps_find axis_eqb update]; intros [= <-];
      cbn [flow enabled set_enabled]; (split; [exact Hb1 |]);
      try exact Hb2; now destruct (enabled _).
  - apply (in_sync_three _ px py pz); [exact Hp | exact Hs].
  - apply (in_sync_three _ px py pz); [exact Hp | exact Hs].
Qed.

(** X13: Whatever the user and the scheduler do, and whatever fails on the
    way, the window keeps showing the state: each flow label is the
    stored flow to two decimals and each toggle button shows the flag of
    its pump. *)
Theorem window_follows_state (MOCK_MODE : bool) (py_float : string -> option float)
    (acts : list action) (w : world) :
  well_formed w -> in_sync w -> in_sync (run MOCK_MODE py_float acts w).
Proof.
  unfold run. revert w.
  induction acts as [|a acts IH]; intros w Hw Hs; cbn [fold_left]; [exact Hs |].
  apply IH.
  - destruct Hw as [Hl Hk].
    destruct (step_Inv MOCK_MODE py_float false [AX; AY; AZ] a w) as (H1 & H2 & _).
    + now right.
    + repeat split; [assumption | assumption | discriminate].
    + now split.
  - now apply step_in_sync.
Qed.

(** ** Applying rates, connected or not *)

(** X16: Pressed while disconnected, Set Flow Rates stores the flows and the
    syringe ids and returns, but nothing is sent: the printer never sees
    that calibration. *)
Theorem apply_rates_while_disconnected (MOCK_MODE : bool)
    (py_float : string -> option float) (w : world) :
  well_formed w ->
  connected w = false ->
  let w' := snd (apply_rates MOCK_MODE py_float w) in
  fst (apply_rates MOCK_MODE py_float w) = Done tt
  /\ (forall b, flow_of w' b = Some (parsed_flow py_float (flow_entries (gui w) b))
                /\ syringe_of w' b = Some (selected_id (syringe_vars (gui w) b)))
  /\ device w' = device w
  /\ added w
       [Acquire; Store AX Fflow; Store AX Fsyringe; Store AY Fflow; Store AY Fsyringe;
        Store AZ Fflow; Store AZ Fsyringe; Release] w'.
Proof.
  intros Hw Hc w'. subst w'.
  rewrite (apply_rates_calibration MOCK_MODE py_float w Hw).
  destruct Hw as [Hl Hk].
  destruct (keys_three _ Hk) as (px & py & pz & Hp).
  destruct (store_rates_run py_float (log Acquire (set_lock true w)) px py pz Hp)
    as (w1 & E & Hp1 & Ht1 & _ & Hc1 & _ & _ & Hd1 & _).
  unfold with_lock. rewrite Hl. rewrite (bind_done _ _ _ _ _ E).
  cbn [connected device log set_lock] in Hc1, Hd1.
  assert (Hsend : forall cmd, send_gcode MOCK_MODE cmd w1 = (Done tt, w1)).
  { intros cmd. unfold send_gcode. unfold_m. now rewrite Hc1, Hc. }
  unfold standing_commands.
  rewrite !(bind_done _ _ _ _ _ (Hsend _)), Hsend.
  cbn [fst snd device log set_lock].
  unfold flow_of, syringe_of, added in *. cbn [pumps trace log set_lock] in *.
  rewrite Hp1, Ht1, Hd1. cbn [gui log set_lock].
  split; [reflexivity | split; [| split; [reflexivity |]]].
  - intros b. destruct b; split; reflexivity.
  - rewrite <- !app_assoc. reflexivity.
Qed.

(** X17: Pressed while connected, with a port that does not fail, Set Flow
    Rates echoes exactly four commands in this order: the M92 line of the
    chosen syringes, then M302 S0, M211 S0 and G91. *)
Theorem apply_rates_sends_four_lines (MOCK_MODE : bool)
    (py_float : string -> option float) (w : world) :
  well_formed w ->
  connected w = true ->
  transport_quiet MOCK_MODE 4 w ->
  let k a := selected_steps (syringe_vars (gui w) a) in
  let w' := snd (apply_rates MOCK_MODE py_float w) in
  fst (apply_rates MOCK_MODE py_float w) = Done tt
  /\ exists evs,
       added w evs w'
       /\ printed evs = [">> " ++ m92_text (k AX) (k AY) (k AZ);
                         ">> M302 S0"; ">> M211 S0"; ">> G91"]
       /\ write_attempts evs =
          (if negb MOCK_MODE then
             match ser w with
             | Some _ => [m92_text (k AX) (k AY) (k AZ) ++ LF; "M302 S0" ++ LF;
                          "M211 S0" ++ LF; "G91" ++ LF]
             | None => []
             end
           else []).
Proof.
  intros Hw Hc Hq k w'. subst w' k.
  rewrite (apply_rates_calibration MOCK_MODE py_float w Hw).
  destruct Hw as [Hl Hk].
  destruct (keys_three _ Hk) as (px & py & pz & Hp).
  destruct (store_rates_run py_float (log Acquire (set_lock true w)) px py pz Hp)
    as (w1 & E & _ & Ht1 & Hs1 & Hc1 & _ & _ & Hd1 & _).
  unfold with_lock. rewrite Hl. rewrite (bind_done _ _ _ _ _ E).
  cbn [ser connected device log set_lock] in Hs1, Hc1, Hd1.
  unfold added in *. cbn [trace log set_lock] in Ht1.
  generalize (m92_text (selected_steps (syringe_vars (gui w) AX))
                (selected_steps (syringe_vars (gui w) AY))
                (selected_steps (syringe_vars (gui w) AZ))).
  intros cmd.
  rewrite Hc in Hc1. rewrite <- Hs1. clear E.
  assert (Hq1 : transport_quiet MOCK_MODE 4 w1).
  { unfold transport_quiet in *. rewrite Hs1, Hd1.
    destruct Hq as [Hq | [Hq | [Hq | Hq]]]; auto. congruence. }
  clear Hq Hs1 Hd1 Hp Hk Hl Hc.
  destruct w1 as [s1 c1 k1 l1 ps1 g1 al1 dv1 tr1].
  cbn [connected trace ser] in *. subst c1 tr1.
  unfold standing_commands, send_gcode, serial, transport_quiet in *. unfold_m.
  destruct MOCK_MODE; [| destruct s1 as [h|]].
  - destruct s1; cbn; rewrite <- !app_assoc;
      (split; [reflexivity | eexists; split; [reflexivity | split; reflexivity]]).
  - destruct Hq1 as [Hq | [Hq | [Hq | Hq]]]; try discriminate.
    cbn [device] in Hq.
    destruct dv1 as [|[|m1] [|[|m2] [|[|m3] [|[|m4] dv1]]]]; cbn in Hq;
      try discriminate; cbn; rewrite <- !app_assoc;
      (split; [reflexivity | eexists; split; [reflexivity | split; reflexivity]]).
  - cbn. rewrite <- !app_assoc.
    split; [reflexivity | eexists; split; [reflexivity | split; reflexivity]].
Qed.

(** ** The real port *)








(** ** The loop while writes succeed *)

Lemma forallb_firstn_S {A : Type} (f : A -> bool) (n : nat) (l : list A) :
  forallb f (firstn (S n) l) = true ->
  forallb f (firstn n l) = true /\ forallb f (firstn n (tl l)) = true
  /\ forallb f (firstn 1 l) = true.
Proof.
  revert l. induction n as [|n IH]; intros l H.
  - destruct l as [|x l]; [now repeat split |].
    cbn in *. now repeat split.
  - destruct l as [|x l]; [now repeat split |].
    cbn [firstn forallb tl] in *. apply andb_true_iff in H. destruct H as [Hx Hl].
    destruct (IH l Hl) as (H1 & H2 & H3).
    rewrite Hx. cbn. now repeat split.
Qed.

Lemma tick_ok (MOCK_MODE : bool) (w : world) :
  lock w = false ->
  forallb is_ok (firstn 1 (device w)) = true ->
  let w' := snd (scheduler_tick MOCK_MODE w) in
  fst (scheduler_tick MOCK_MODE w) = Done tt
  /\ lock w' = false
  /\ (device w' = device w \/ device w' = tl (device w))
  /\ ticks_done (trace w') = S (ticks_done (trace w)).
Proof.
  unfold scheduler_tick, send_gcode, serial. unfold_m.
  destruct w as [s c k l ps g al dv tr]. cbn [lock device]. intros -> Hd.
  assert (Hcases : dv = [] \/ exists rest, dv = Ok :: rest).
  { destruct dv as [|[|m] rest]; [now left | right; now exists rest | discriminate]. }
  clear Hd.
  destruct c, k, s as [h|], MOCK_MODE;
    destruct Hcases as [-> | [rest ->]]; simpl;
    rewrite <- ?app_assoc, ticks_done_app; simpl;
    rewrite Nat.add_1_r; repeat split; auto.
Qed.

(** X18: The loop makes every turn that is due as long as the port accepts
    the writes: with the next [n] replies of the device good (or none
    left), [n] turns are made and none raises. *)
Theorem scheduler_runs_while_writes_succeed (MOCK_MODE : bool) (n : nat) (w : world) :
  lock w = false ->
  forallb is_ok (firstn n (device w)) = true ->
  let w' := snd (scheduler MOCK_MODE n w) in
  fst (scheduler MOCK_MODE n w) = Done tt
  /\ ticks_done (trace w') = (ticks_done (trace w) + n)%nat
  /\ lock w' = false.
Proof.
  revert w. induction n as [|n IH]; intros w Hl Hd; cbn [scheduler].
  - repeat split; [now rewrite Nat.add_0_r | exact Hl].
  - destruct (forallb_firstn_S is_ok n (device w) Hd) as (Hd1 & Hd2 & Hd3).
    destruct (tick_ok MOCK_MODE w Hl Hd3) as (H1 & H2 & H3 & H4).
    destruct (scheduler_tick MOCK_MODE w) as [[[] | e |] w1] eqn:E; cbn [fst snd] in *;
      try discriminate.
    rewrite !(bind_done _ _ _ _ _ E).
    assert (Hd' : forallb is_ok (firstn n (device w1)) = true).
    { destruct H3 as [-> | ->]; assumption. }
    destruct (IH w1 H2 Hd') as (I1 & I2 & I3).
    split; [exact I1 | split; [| exact I3]].
    rewrite I2, H4. lia.
Qed.

(** ** The further properties at concrete inputs *)

Lemma toggle_twice_restores_witness :
  pumps_find AX (pumps (initial_world [])) = Some initial_pump
  /\ pumps (snd (toggle_pump AX (snd (toggle_pump AX (initial_world [])))))
     = pumps (initial_world []).
Proof.
  split; [reflexivity |].
  exact (proj1 (proj2 (toggle_twice_restores (initial_world []) AX initial_pump eq_refl))).
Defined.

Lemma toggle_changes_one_field_witness :
  pumps_find AY (pumps (initial_world [])) = Some initial_pump
  /\ axis_fields (pumps (snd (toggle_pump AY (initial_world [])))) AY
     = (if enabled initial_pump then [] else [rate_field (AY, initial_pump)]).
Proof.
  split; [reflexivity |].
  exact (proj1 (proj2 (proj2 (toggle_changes_one_field (initial_world []) AY initial_pump
                                eq_refl)))).
Defined.

Lemma disconnect_silences_witness :
  fst (disconnect_serial false (printer_world [])) = Done tt
  /\ connected (snd (disconnect_serial false (printer_world []))) = false.
Proof.
  split; [reflexivity |].
  exact (proj1 (disconnect_silences false (printer_world []) eq_refl)).
Defined.

Lemma disconnect_close_failure_witness :
  ser (printer_world [Fail "port gone"])
  = Some {| port := SERIAL_PORT; baudrate := BAUDRATE; timeout := 1 |}
  /\ device (printer_world [Fail "port gone"]) = [Fail "port gone"]
  /\ fst (disconnect_serial false (printer_world [Fail "port gone"]))
     = Raised (SerialException "port gone").
Proof.
  split; [reflexivity | split; [reflexivity |]].
  exact (proj1 (disconnect_close_failure (printer_world [Fail "port gone"]) _ _ _
                  eq_refl eq_refl)).
Defined.

Lemma mock_scheduler_never_stops_witness :
  lock (initial_world []) = false
  /\ fst (scheduler true 5 (initial_world [])) = Done tt.
Proof.
  split; [reflexivity |].
  exact (proj1 (mock_scheduler_never_stops 5 (initial_world []) eq_refl)).
Defined.

Lemma mock_mode_never_touches_port_witness :
  lock (initial_world [Fail "unplugged"]) = false
  /\ device (run true ascii_float [Connect; SetFlowRates; Tick; CancelReset; Disconnect]
               (initial_world [Fail "unplugged"]))
     = device (initial_world [Fail "unplugged"]).
Proof.
  split; [reflexivity |].
  exact (proj1 (mock_mode_never_touches_port ascii_float
                  [Connect; SetFlowRates; Tick; CancelReset; Disconnect]
                  (initial_world [Fail "unplugged"]) eq_refl)).
Defined.

Lemma printer_world_well_formed (script : list reply) : well_formed (printer_world script).
Proof. split; reflexivity. Defined.

Lemma initial_world_well_formed (script : list reply) : well_formed (initial_world script).
Proof. split; reflexivity. Defined.

Lemma apply_rates_write_failure_witness :
  well_formed (printer_world [Fail "write timeout"])
  /\ fst (apply_rates false ascii_float (printer_world [Fail "write timeout"]))
     = Raised (SerialException "write timeout").
Proof.
  split; [apply printer_world_well_formed |].
  exact (proj1 (apply_rates_write_failure ascii_float (printer_world [Fail "write timeout"])
                  _ _ _ (printer_world_well_formed _) eq_refl eq_refl eq_refl)).
Defined.

Lemma cancel_stop_write_failure_witness :
  well_formed (printer_world [Fail "write timeout"])
  /\ fst (cancel_and_reset false (printer_world [Fail "write timeout"]))
     = Raised (SerialException "write timeout").
Proof.
  split; [apply printer_world_well_formed |].
  exact (proj1 (cancel_stop_write_failure (printer_world [Fail "write timeout"])
                  _ _ _ (printer_world_well_formed _) eq_refl eq_refl eq_refl)).
Defined.

Lemma cancel_sends_stop_then_reset_witness :
  well_formed (printer_world [])
  /\ connected (printer_world []) = true
  /\ transport_quiet false 2 (printer_world [])
  /\ fst (cancel_and_reset false (printer_world [])) = Done tt.
Proof.
  assert (Hq : transport_quiet false 2 (printer_world [])).
  { right; right; right. reflexivity. }
  split; [apply printer_world_well_formed | split; [reflexivity | split; [exact Hq |]]].
  exact (proj1 (cancel_sends_stop_then_reset false (printer_world [])
                  (printer_world_well_formed _) eq_refl Hq)).
Defined.

Lemma reconnect_resumes_with_zero_rates_witness :
  well_formed (printer_world [])
  /\ fst (scheduler_tick true
            (snd (connect_serial true (snd (cancel_and_reset true (printer_world []))))))
     = Done tt.
Proof.
  split; [apply printer_world_well_formed |].
  exact (proj1 (reconnect_resumes_with_zero_rates (printer_world [])
                  (printer_world_well_formed _))).
Defined.

Lemma initial_world_in_sync (script : list reply) : in_sync (initial_world script).
Proof.
  apply (in_sync_three _ initial_pump initial_pump initial_pump); [reflexivity |].
  intros a. split; [| destruct a; reflexivity].
  cbn [gui initial_world initial_widgets current_labels flow initial_pump].
  destruct a; symmetry; exact zero_label.
Defined.

Lemma window_follows_state_witness :
  well_formed (initial_world [])
  /\ in_sync (initial_world [])
  /\ in_sync (run true ascii_float
                [TypeFlow AX "6000"; SetFlowRates; Toggle AZ; CancelReset]
                (initial_world [])).
Proof.
  split; [apply initial_world_well_formed | split; [apply initial_world_in_sync |]].
  exact (window_follows_state true ascii_float
           [TypeFlow AX "6000"; SetFlowRates; Toggle AZ; CancelReset] (initial_world [])
           (initial_world_well_formed _) (initial_world_in_sync _)).
Defined.

Lemma run_well_formed_witness :
  well_formed (initial_world [Fail "no port"])
  /\ well_formed (run false ascii_float [Connect; SetFlowRates; Tick; Toggle AX]
                    (initial_world [Fail "no port"])).
Proof.
  split; [apply initial_world_well_formed |].
  exact (run_well_formed false ascii_float [Connect; SetFlowRates; Tick; Toggle AX]
           (initial_world [Fail "no port"]) (initial_world_well_formed _)).
Defined.



Lemma apply_rates_while_disconnected_witness :
  well_formed typo_world
  /\ connected typo_world = false
  /\ fst (apply_rates false ascii_float typo_world) = Done tt.
Proof.
  assert (H : well_formed typo_world) by (split; reflexivity).
  split; [exact H | split; [reflexivity |]].
  exact (proj1 (apply_rates_while_disconnected false ascii_float typo_world H eq_refl)).
Defined.

Lemma apply_rates_sends_four_lines_witness :
  well_formed (printer_world [])
  /\ connected (printer_world []) = true
  /\ transport_quiet false 4 (printer_world [])
  /\ fst (apply_rates false ascii_float (printer_world [])) = Done tt.
Proof.
  assert (Hq : transport_quiet false 4 (printer_world [])).
  { right; right; right. reflexivity. }
  split; [apply printer_world_well_formed | split; [reflexivity | split; [exact Hq |]]].
  exact (proj1 (apply_rates_sends_four_lines false ascii_float (printer_world [])
                  (printer_world_well_formed _) eq_refl Hq)).
Defined.

Lemma scheduler_runs_while_writes_succeed_witness :
  lock (printer_world [Ok; Ok; Ok; Fail "late"]) = false
  /\ forallb is_ok (firstn 3 (device (printer_world [Ok; Ok; Ok; Fail "late"]))) = true
  /\ fst (scheduler false 3 (printer_world [Ok; Ok; Ok; Fail "late"])) = Done tt.
Proof.
  split; [reflexivity | split; [reflexivity |]].
  exact (proj1 (scheduler_runs_while_writes_succeed false 3
                  (printer_world [Ok; Ok; Ok; Fail "late"]) eq_refl eq_refl)).
Defined.
